(** * expressjs-api-project: the request pipeline of [src/app.js]

    A shallow embedding of the application assembled in [src/app.js] from
    [src/middlewares.js], [src/api/api.js] and [src/routers/router.js],
    together with the part of the Express 4 router it runs on.

    - [JS]          values, errors and the string methods the code calls;
    - [Http]        the request, the response and the console streams;
    - [Express]     [res.status], [res.json], [res.setHeader],
                    [res.removeHeader], [Router().get], [app.use] and the
                    dispatch loop of [Router.handle];
    - [Middlewares], [ApiLib], [Api], [RoutersLib], [Routers], [App]
                    the files of the repository, one module each.

    The response of the model is the response object as [res.send] leaves
    it: the status code, the headers, and the chunk it passes to [res.end].
    [res.send] is modelled with its entity tag, its [Content-Length], its
    freshness check (a fresh conditional GET or HEAD is answered 304) and
    the headers it strips for 204, 205 and 304.  What Node does below the
    framework when the response is written (the [Date] and [Connection]
    headers, no entity for a HEAD request) is outside the model.

    Request targets are taken in origin form, the form that starts with
    [/]: [getPathname] is [parseurl]'s own parser for that form, and every
    property below that depends on the path of the request is stated for
    targets in that form. *)

From Stdlib Require Import Ascii String ZArith Lia.
From stdpp Require Import base strings list gmap.

Set Warnings "-register-all".

(** ** JavaScript values *)

Module JS.

(** Numbers are kept integral: the code under study neither builds nor
    inspects a number. *)
Inductive value : Type :=
| Undefined
| Null
| Bool (b : bool)
| Number (n : Z)
| Str (s : string)
| Array (xs : list value)
| Object (fields : list (string * value)).

(** An [Error] instance, as far as the code reads it ([err.stack]). *)
Record error : Type := Error {
  err_name : string;
  err_message : string;
  err_stack : string
}.

Definition is_upper (c : ascii) : bool :=
  (65 <=? nat_of_ascii c)%nat && (nat_of_ascii c <=? 90)%nat.

Definition is_lower (c : ascii) : bool :=
  (97 <=? nat_of_ascii c)%nat && (nat_of_ascii c <=? 122)%nat.

Definition lower (c : ascii) : ascii :=
  if is_upper c then ascii_of_nat (nat_of_ascii c + 32) else c.

Definition upper (c : ascii) : ascii :=
  if is_lower c then ascii_of_nat (nat_of_ascii c - 32) else c.

(** [String.prototype.toLowerCase] / [toUpperCase] on ASCII text. *)
Fixpoint toLowerCase (s : string) : string :=
  match s with
  | EmptyString => EmptyString
  | String c s' => String (lower c) (toLowerCase s')
  end.

Fixpoint toUpperCase (s : string) : string :=
  match s with
  | EmptyString => EmptyString
  | String c s' => String (upper c) (toUpperCase s')
  end.

(** [s.slice(n)] for [0 <= n]. *)
Fixpoint slice (n : nat) (s : string) : string :=
  match n, s with
  | O, _ => s
  | S n', String _ s' => slice n' s'
  | S _, EmptyString => EmptyString
  end.

(** [s.slice(0, -1)]. *)
Fixpoint slice_init (s : string) : string :=
  match s with
  | EmptyString => EmptyString
  | String c EmptyString => EmptyString
  | String c s' => String c (slice_init s')
  end.

(** [s.endsWith(c)] for a one-character [c]. *)
Fixpoint endsWith (s : string) (c : ascii) : bool :=
  match s with
  | EmptyString => false
  | String d EmptyString => Ascii.eqb d c
  | String _ s' => endsWith s' c
  end.

(** [xs.join(sep)]. *)
Fixpoint join (sep : string) (xs : list string) : string :=
  match xs with
  | [] => ""
  | [x] => x
  | x :: rest => x +:+ sep +:+ join sep rest
  end.

(** The double quote, U+0022. *)
Definition dquote : ascii := ascii_of_nat 34.
Definition backslash : ascii := ascii_of_nat 92.

Definition hex_digit (n : nat) : ascii :=
  if (n <? 10)%nat then ascii_of_nat (48 + n) else ascii_of_nat (87 + n).

(** [QuoteJSONString]: the escapes [JSON.stringify] applies to a string. *)
Definition quote_char (c : ascii) : string :=
  let n := nat_of_ascii c in
  if Ascii.eqb c dquote then String backslash (String dquote "")
  else if Ascii.eqb c backslash then String backslash (String backslash "")
  else if (n =? 8)%nat then String backslash "b"
  else if (n =? 9)%nat then String backslash "t"
  else if (n =? 10)%nat then String backslash "n"
  else if (n =? 12)%nat then String backslash "f"
  else if (n =? 13)%nat then String backslash "r"
  else if (n <? 32)%nat then
    String backslash ("u00" +:+ String (hex_digit (n / 16)) (String (hex_digit (n mod 16)) ""))
  else String c "".

Fixpoint quote_chars (s : string) : string :=
  match s with
  | EmptyString => ""
  | String c s' => quote_char c +:+ quote_chars s'
  end.

Definition quote (s : string) : string :=
  String dquote (quote_chars s +:+ String dquote "").

Fixpoint digits_pos (fuel : nat) (p : positive) (acc : string) : string :=
  match fuel with
  | O => acc
  | S fuel' =>
      let d := ascii_of_nat (48 + Z.to_nat (Z.pos p mod 10)) in
      match (Z.pos p / 10)%Z with
      | Z.pos q => digits_pos fuel' q (String d acc)
      | _ => String d acc
      end
  end.

Definition show_Z (n : Z) : string :=
  match n with
  | Z0 => "0"
  | Z.pos p => digits_pos (Pos.to_nat p) p ""
  | Z.neg p => "-" +:+ digits_pos (Pos.to_nat p) p ""
  end.

(** [String(n)] for a natural number. *)
Definition show_nat (n : nat) : string := show_Z (Z.of_nat n).

(** [Buffer.byteLength(s, "utf8")]; a character of the model is a code
    unit below U+0100, which takes one byte below U+0080 and two from
    there on. *)
Fixpoint byteLength (s : string) : nat :=
  match s with
  | EmptyString => 0
  | String c s' => (if (nat_of_ascii c <? 128)%nat then 1 else 2) + byteLength s'
  end.

(** [JSON.stringify(v)] without replacer or indentation.  [None] is the
    [undefined] result (the value itself is [undefined]); inside an array
    [undefined] prints as [null], inside an object the property is
    dropped. *)
Fixpoint stringify (v : value) : option string :=
  match v with
  | Undefined => None
  | Null => Some "null"
  | Bool true => Some "true"
  | Bool false => Some "false"
  | Number n => Some (show_Z n)
  | Str s => Some (quote s)
  | Array xs =>
      let item x := match stringify x with Some t => t | None => "null" end in
      Some ("[" +:+ join "," (map item xs) +:+ "]")
  | Object fields =>
      let prop (kv : string * value) :=
        match stringify (snd kv) with
        | Some t => [quote (fst kv) +:+ ":" +:+ t]
        | None => []
        end in
      Some ("{" +:+ join "," (concat (map prop fields)) +:+ "}")
  end.

End JS.

(** ** The exchange: request, response, console *)

Module Http.

(** [req]: Node lower-cases the names of the request headers, so
    [headers] is keyed by lower-case names.  Express itself leaves
    [req.body] and [req.cookies] undefined. *)
Record request : Type := Request {
  method : string;
  url : string;
  headers : gmap string string;
  body : JS.value;
  cookies : JS.value
}.

(** The chunk of a response: the value a handler gave [res.json], which
    goes out as its JSON text, or the text [res.send] was given or put in
    its place. *)
Inductive payload : Type :=
| Json (v : JS.value)
| Text (s : string).

(** [res]: header names compare case-insensitively, so the header table is
    keyed by the lower-cased name and keeps the name as it was written. *)
Record response : Type := Response {
  statusCode : nat;
  res_headers : gmap string (string * string);
  sent : option payload
}.

(** The diagnostic streams written by [console.log] and [console.error]. *)
Record console : Type := Console {
  stdout : list string;
  stderr : list string
}.

Record exchange : Type := Exchange {
  req : request;
  res : response;
  con : console
}.

Definition set_url (u : string) (r : request) : request :=
  Request (method r) u (headers r) (body r) (cookies r).
Definition set_body (v : JS.value) (r : request) : request :=
  Request (method r) (url r) (headers r) v (cookies r).
Definition set_cookies (v : JS.value) (r : request) : request :=
  Request (method r) (url r) (headers r) (body r) v.

Definition on_req (f : request -> request) (x : exchange) : exchange :=
  Exchange (f (req x)) (res x) (con x).
Definition on_res (f : response -> response) (x : exchange) : exchange :=
  Exchange (req x) (f (res x)) (con x).
Definition on_con (f : console -> console) (x : exchange) : exchange :=
  Exchange (req x) (res x) (f (con x)).

Definition log (line : string) (c : console) : console :=
  Console (stdout c ++ [line]) (stderr c).
Definition error (line : string) (c : console) : console :=
  Console (stdout c) (stderr c ++ [line]).

(** How a middleware call comes back: it called [next()], it threw (or
    called [next(err)]), or it ended the response and did not call
    [next]. *)
Inductive outcome : Type :=
| Next (x : exchange)
| Fail (e : JS.error) (x : exchange)
| Reply (x : exchange).

Definition handler : Type := exchange -> outcome.
Definition error_handler : Type := JS.error -> exchange -> outcome.

End Http.

(** ** Library functions

    [JSON.parse], [qs.parse] and [cookie.parse], which the middlewares
    call, and the packages [etag] and [fresh], which [res.send] calls, are
    taken as given.  [JSON.parse] either throws or returns the parsed
    value; [qs.parse] returns an object for every argument; [cookie.parse]
    returns an object for every string; [etag] gives the entity tag of a
    body; [fresh] takes the request headers and the [ETag] and
    [Last-Modified] of the response, absent or not, and says whether the
    client's copy is still good. *)

Class Platform : Type := {
  JSON_parse : JS.value -> JS.error + JS.value;
  qs_parse : JS.value -> JS.value;
  cookie_parse : string -> JS.value;
  etag : string -> string;
  fresh : gmap string string -> option string -> option string -> bool
}.



(** ** The framework: response methods, routers, dispatch *)

Module Express.
Import Http.

(** *** [res] methods *)

Definition status (code : nat) (r : response) : response :=
  Response code (res_headers r) (sent r).

Definition setHeader (name value : string) (r : response) : response :=
  Response (statusCode r)
           (<[JS.toLowerCase name := (name, value)]> (res_headers r))
           (sent r).

Definition removeHeader (name : string) (r : response) : response :=
  Response (statusCode r) (delete (JS.toLowerCase name) (res_headers r)) (sent r).

Definition getHeader (name : string) (r : response) : option string :=
  snd <$> res_headers r !! JS.toLowerCase name.

(** [!this.get(name)]: absent, or present with the empty string. *)
Definition lacks (name : string) (r : response) : bool :=
  match getHeader name r with
  | Some v => bool_decide (v = "")
  | None => true
  end.

(** The text [res.json] writes for a payload. *)
Definition wire (p : payload) : option string :=
  match p with
  | Json v => JS.stringify v
  | Text s => Some s
  end.

(** [res.end(chunk)].  For a HEAD request [res.send] ends the response
    without the chunk; the model keeps the chunk it would have written. *)
Definition end_with (p : payload) (r : response) : response :=
  Response (statusCode r) (res_headers r) (Some p).

Section with_platform.
Context `{Platform}.

(** [req.fresh], read when the response is sent: only GET and HEAD, only
    for a status 2xx or 304, and then what [fresh] says of the request
    headers and the validators of the response. *)
Definition req_fresh (rq : request) (r : response) : bool :=
  if negb (bool_decide (method rq = "GET")) && negb (bool_decide (method rq = "HEAD"))
  then false
  else if ((200 <=? statusCode r)%nat && (statusCode r <? 300)%nat)
          || (statusCode r =? 304)%nat
  then fresh (headers rq) (getHeader "ETag" r) (getHeader "Last-Modified" r)
  else false.

(** The headers [res.send] gives a chunk that is there: its
    [Content-Length], and an [ETag] unless one is set (the application
    keeps the default [etag] setting). *)
Definition entity_headers (p : payload) (r : response) : response :=
  match wire p with
  | Some text =>
      let generateETag := lacks "ETag" r in
      let r := setHeader "Content-Length" (JS.show_nat (JS.byteLength text)) r in
      if generateETag && negb (bool_decide (etag text = ""))
      then setHeader "ETag" (etag text) r
      else r
  | None => r
  end.

(** [res.send(chunk)] once the content type is settled: the headers of
    the entity; the freshness check, which turns the status into 304; the
    headers and the chunk that 204 and 304, and 205, do away with; and
    [res.end]. *)
Definition send_chunk (rq : request) (p : payload) (r : response) : response :=
  let r := entity_headers p r in
  let r := if req_fresh rq r then status 304 r else r in
  if (statusCode r =? 204)%nat || (statusCode r =? 304)%nat then
    end_with (Text "")
      (removeHeader "Transfer-Encoding"
         (removeHeader "Content-Length" (removeHeader "Content-Type" r)))
  else if (statusCode r =? 205)%nat then
    end_with (Text "")
      (removeHeader "Transfer-Encoding" (setHeader "Content-Length" "0" r))
  else end_with p r.

(** [res.json(v)] of the response whose request is [rq]: default the
    content type, stringify, [res.send].  A content type set beforehand is
    kept as it is (Express would add the charset to it; nothing in the
    program sets one). *)
Definition json (rq : request) (v : JS.value) (r : response) : response :=
  let r := if lacks "Content-Type" r
           then setHeader "Content-Type" "application/json; charset=utf-8" r
           else r in
  send_chunk rq (Json v) r.

(** [res.send(text)]. *)
Definition send (rq : request) (s : string) (r : response) : response :=
  let r := if lacks "Content-Type" r
           then setHeader "Content-Type" "text/html; charset=utf-8" r
           else r in
  send_chunk rq (Text s) r.

(** *** Paths *)

(** [parseurl(req).pathname] of a target in origin form (one that starts
    with [/]): the text before the first [?] or [#].  For a target in
    absolute form [parseurl] gives the path component instead, and the
    router keeps scheme and host apart; such targets are not covered. *)
Fixpoint getPathname (u : string) : string :=
  match u with
  | EmptyString => EmptyString
  | String c u' =>
      if Ascii.eqb c "?" || Ascii.eqb c "#" then EmptyString
      else String c (getPathname u')
  end.

(** Patterns are literal paths.  With the router's default options
    (case-insensitive, non-strict) the pattern [p] compiles to
    [^q\/?$] for a route and to [^q\/?(?=\/|$)] for a mount point,
    where [q] is [p] without its trailing slash. *)
Definition loose (pattern : string) : string :=
  if JS.endsWith pattern "/" then JS.slice_init pattern else pattern.

(** Match [q] at the start of [path] ignoring case; give the matched text
    and what follows it. *)
Fixpoint strip_prefix_ci (q path : string) : option (string * string) :=
  match q with
  | EmptyString => Some (EmptyString, path)
  | String a q' =>
      match path with
      | EmptyString => None
      | String b path' =>
          if Ascii.eqb (JS.lower a) (JS.lower b) then
            match strip_prefix_ci q' path' with
            | Some (m, rest) => Some (String b m, rest)
            | None => None
            end
          else None
      end
  end.

Definition route_match (pattern path : string) : bool :=
  match strip_prefix_ci (loose pattern) path with
  | Some (_, rest) => bool_decide (rest = "") || bool_decide (rest = "/")
  | None => false
  end.

(** [Layer.match] of a mount point: the matched text ([layer.path]), the
    empty text for the mount point [/], which matches every path. *)
Definition mount_match (pattern path : string) : option string :=
  if bool_decide (pattern = "/") then Some ""
  else
    match strip_prefix_ci (loose pattern) path with
    | Some (m, EmptyString) => Some m
    | Some (m, String c rest) =>
        if Ascii.eqb c "/" then
          match rest with
          | EmptyString => Some (m +:+ "/")
          | String d _ => if Ascii.eqb d "/" then Some (m +:+ "/") else Some m
          end
        else None
    | None => None
    end.

Definition starts_with_slash (s : string) : bool :=
  match s with
  | String c _ => Ascii.eqb c "/"
  | EmptyString => false
  end.

(** [trim_prefix], for a target in origin form (no scheme and host to
    keep apart): refuse a match that does not break on a separator, cut
    the matched text off [req.url] and keep a leading slash.  Gives the
    exchange and the [slashAdded] flag. *)
Definition trim_prefix (layerPath path : string) (x : exchange)
  : option (exchange * bool) :=
  if bool_decide (layerPath = "") then Some (x, false)
  else
    match String.get (String.length layerPath) path with
    | Some c =>
        if negb (Ascii.eqb c "/") && negb (Ascii.eqb c ".") then None
        else
          let u := JS.slice (String.length layerPath) (url (req x)) in
          if starts_with_slash u then Some (on_req (set_url u) x, false)
          else Some (on_req (set_url ("/" +:+ u)) x, true)
    | None =>
        let u := JS.slice (String.length layerPath) (url (req x)) in
        if starts_with_slash u then Some (on_req (set_url u) x, false)
        else Some (on_req (set_url ("/" +:+ u)) x, true)
    end.

(** The start of the next [next()]: undo [trim_prefix]. *)
Definition restore (removed : string) (slashAdded : bool) (x : exchange) : exchange :=
  let u := url (req x) in
  let u := if slashAdded then JS.slice 1 u else u in
  let u := if bool_decide (removed = "") then u else removed +:+ u in
  on_req (set_url u) x.

(** *** Routers *)

(** A route made by [router.get(path, h)]: one path, one method, one
    handler. *)
Record route : Type := Route {
  route_path : string;
  route_method : string;
  route_handle : handler
}.

(** A [Router()] that holds routes only, in registration order. *)
Definition Router : Type := list route.

Definition new_router : Router := [].

Definition get (path : string) (h : handler) (r : Router) : Router :=
  r ++ [Route path "get" h].

(** [Route.prototype._handles_method]: HEAD falls back to the GET handler
    of a route without a HEAD handler. *)
Definition handles_method (r : route) (m : string) : bool :=
  let name := JS.toLowerCase m in
  let name := if bool_decide (name = "head") && negb (bool_decide (route_method r = "head"))
              then "get" else name in
  bool_decide (name = route_method r).

(** [Route.prototype._options]. *)
Definition route_options (r : route) : list string :=
  map JS.toUpperCase
      (route_method r :: if bool_decide (route_method r = "get") then ["head"] else []).

Fixpoint appendMethods (acc addition : list string) : list string :=
  match addition with
  | [] => acc
  | m :: rest => appendMethods (if bool_decide (m ∈ acc) then acc else acc ++ [m]) rest
  end.

Definition sendOptionsResponse (options : list string) (x : exchange) : exchange :=
  let allow := JS.join "," options in
  on_res (fun r => send (req x) allow (setHeader "Allow" allow r)) x.

(** The end of a router's stack: an OPTIONS request for which some
    route matched the path is answered with the methods collected;
    otherwise control goes back to the parent. *)
Definition router_done (options : list string) (x : exchange) : outcome :=
  if bool_decide (method (req x) = "OPTIONS") && negb (bool_decide (options = []))
  then Reply (sendOptionsResponse options x)
  else Next x.

(** [Router.handle] of a router of routes: the first route whose path
    and method match gets the request; if its handler fails, the
    remaining routes are skipped and the failure goes to the parent. *)
Fixpoint router_handle (stack : Router) (options : list string) (x : exchange) : outcome :=
  match stack with
  | [] => router_done options x
  | r :: rest =>
      if route_match (route_path r) (getPathname (url (req x))) then
        if handles_method r (method (req x)) then
          match route_handle r x with
          | Next x' => router_handle rest options x'
          | Fail e x' => Fail e x'
          | Reply x' => Reply x'
          end
        else
          router_handle rest
            (if bool_decide (method (req x) = "OPTIONS")
             then appendMethods options (route_options r) else options)
            x
      else router_handle rest options x
  end.

(** *** The application *)

(** What [app.use] is given: a middleware [(req, res, next)], an error
    middleware [(err, req, res, next)], or a router. *)
Inductive callback : Type :=
| Middleware (h : handler)
| ErrorMiddleware (h : error_handler)
| Mounted (r : Router).

(** A layer of the application's stack; [layer_name] is the identifier
    [src/app.js] passes to [app.use]. *)
Record layer : Type := Layer {
  layer_name : string;
  layer_path : string;
  layer_fn : callback
}.

Definition Application : Type := list layer.

Definition new_app : Application := [].

(** [app.use(fn)] mounts at [/]. *)
Definition use (name : string) (fn : callback) (app : Application) : Application :=
  app ++ [Layer name "/" fn].

(** [app.use(path, fn)]. *)
Definition use_at (path name : string) (fn : callback) (app : Application) : Application :=
  app ++ [Layer name path fn].

(** How an exchange leaves the application: a handler sent the response,
    or the stack was exhausted (Express then answers by itself). *)
Inductive final : Type :=
| Sent (x : exchange)
| Unhandled (err : option JS.error) (x : exchange).

(** Run one layer on a request without a pending error ([handle_request])
    or with one ([handle_error]); [None] when the layer is passed over. *)
Definition call (fn : callback) (err : option JS.error) (x : exchange) : option outcome :=
  match err, fn with
  | None, Middleware h => Some (h x)
  | None, Mounted r => Some (router_handle r [] x)
  | None, ErrorMiddleware _ => None
  | Some e, ErrorMiddleware h => Some (h e x)
  | Some _, _ => None
  end.

(** The [next] loop of the application's router.  The result carries the
    names of the layers that were called, in call order. *)
Fixpoint app_handle (stack : Application) (err : option JS.error) (x : exchange)
         (called : list string) : list string * final :=
  match stack with
  | [] => (called, Unhandled err x)
  | l :: rest =>
      let path := getPathname (url (req x)) in
      match mount_match (layer_path l) path with
      | None => app_handle rest err x called
      | Some layerPath =>
          match trim_prefix layerPath path x with
          | None => app_handle rest err x called
          | Some (x1, slashAdded) =>
              match call (layer_fn l) err x1 with
              | None => app_handle rest err x called
              | Some (Next x2) =>
                  app_handle rest None (restore layerPath slashAdded x2)
                             (called ++ [layer_name l])
              | Some (Fail e x2) =>
                  app_handle rest (Some e) (restore layerPath slashAdded x2)
                             (called ++ [layer_name l])
              | Some (Reply x2) => (called ++ [layer_name l], Sent x2)
              end
          end
      end
  end.

(** A response as [http.createServer] hands it over, and [expressInit],
    which runs before the application's own layers. *)
Definition fresh_response : response := Response 200 ∅ None.

Definition expressInit (x : exchange) : exchange :=
  on_res (setHeader "X-Powered-By" "Express") x.

Definition handle (app : Application) (c : console) (r : request) : list string * final :=
  app_handle app None (expressInit (Exchange r fresh_response c)) [].

End with_platform.

End Express.

(** ** src/middlewares.js *)

Module Middlewares.
Import Http Express.

Section with_platform.
Context `{Platform}.

Definition notFound : handler := fun x =>
  Reply (on_res (fun r =>
    json (req x)
         (JS.Object [("status", JS.Bool false); ("message", JS.Str "Not found")])
         (status 404 r)) x).

Definition errorHandler : error_handler := fun err x =>
  let x := on_con (error (JS.err_stack err)) x in
  Reply (on_res (fun r =>
    json (req x)
         (JS.Object [("status", JS.Bool false);
                     ("message", JS.Str "Internal server error")])
         (status 500 r)) x).

Definition logger : handler := fun x =>
  let x := on_con (log (method (req x) +:+ " " +:+ url (req x))) x in
  Next x.

Definition jsonParser : handler := fun x =>
  if bool_decide (headers (req x) !! "content-type" = Some "application/json") then
    match JSON_parse (body (req x)) with
    | inr v => Next (on_req (set_body v) x)
    | inl e => Fail e x
    end
  else Next x.

Definition urlEncodedParser : handler := fun x =>
  if bool_decide (headers (req x) !! "content-type"
                  = Some "application/x-www-form-urlencoded") then
    Next (on_req (set_body (qs_parse (body (req x)))) x)
  else Next x.

(** [req.headers.cookie || ""]: an absent or empty header gives [""]. *)
Definition cookieParser : handler := fun x =>
  let text := default "" (headers (req x) !! "cookie") in
  Next (on_req (set_cookies (cookie_parse text)) x).

Definition cors : handler := fun x =>
  let x := on_res (setHeader "Access-Control-Allow-Origin" "*") x in
  let x := on_res (setHeader "Access-Control-Allow-Methods" "*") x in
  let x := on_res (setHeader "Access-Control-Allow-Headers" "*") x in
  Next x.

End with_platform.

Module custom.

Definition remove_trailing_slash : handler := fun x =>
  let u := url (req x) in
  if JS.endsWith u "/" && (1 <? String.length u)%nat
  then Next (on_req (set_url (JS.slice_init u)) x)
  else Next x.

Definition remove_x_powered_by : handler := fun x =>
  Next (on_res (removeHeader "X-Powered-By") x).

Definition remove_etag : handler := fun x =>
  Next (on_res (removeHeader "ETag") x).

Definition remove_x_content_type_options : handler := fun x =>
  Next (on_res (removeHeader "X-Content-Type-Options") x).

End custom.

End Middlewares.

(** ** src/api/lib/echo.js *)

Module ApiLib.
Import Http Express.

Section with_platform.
Context `{Platform}.

Definition echo : handler := fun x =>
  Reply (on_res (fun r =>
    json (req x)
         (JS.Object [("status", JS.Bool true);
                     ("message", JS.Str "Hello world, from the API!")])
         (status 200 r)) x).

End with_platform.

End ApiLib.

(** ** src/api/api.js *)

Module Api.
Import Express.

Definition router `{Platform} : Router :=
  get "/echo" ApiLib.echo new_router.

End Api.

(** ** src/routers/lib/echo.js *)

Module RoutersLib.
Import Http Express.

Section with_platform.
Context `{Platform}.

Definition echo : handler := fun x =>
  Reply (on_res (fun r =>
    json (req x)
         (JS.Object [("status", JS.Bool true);
                     ("message", JS.Str "Hello world, from /")])
         (status 200 r)) x).

End with_platform.

End RoutersLib.

(** ** src/routers/router.js *)

Module Routers.
Import Express.

Definition router `{Platform} : Router :=
  get "/" RoutersLib.echo new_router.

End Routers.

(** ** src/app.js *)

Module App.
Import Http Express Middlewares.

#[local] Notation "a |> f" := (f a) (at level 45, left associativity, only parsing).

Section with_platform.
Context `{Platform}.

(** The [app.use] calls of the file, top to bottom. *)
Definition app : Application :=
  new_app
  |> use "logger" (Middleware logger)
  |> use "cors" (Middleware cors)
  |> use "custom.remove_x_powered_by" (Middleware custom.remove_x_powered_by)
  |> use "jsonParser" (Middleware jsonParser)
  |> use "urlEncodedParser" (Middleware urlEncodedParser)
  |> use "cookieParser" (Middleware cookieParser)
  |> use_at "/api" "api" (Mounted Api.router)
  |> use_at "/" "router" (Mounted Routers.router)
  |> use "notFound" (Middleware notFound)
  |> use "errorHandler" (ErrorMiddleware errorHandler).

(** One exchange: the console before it, the request; the layers
    called, and how the exchange ended. *)
Definition serve (c : console) (r : request) : list string * final :=
  handle app c r.

End with_platform.

End App.

(** ** A concrete platform

    An instance of [Platform] on which the pipeline can be run: its
    [JSON.parse] accepts the three literal names and rejects every other
    text, its [qs.parse] and [cookie.parse] return the empty object.  Its
    entity tag carries the length of the body where the library puts a
    hash as well.  Its [fresh] is the library's on the requests the
    examples use, which carry no [Cache-Control] and no
    [If-Modified-Since]: such a request is fresh when its [If-None-Match]
    is [*], and stale when it has none. *)

Module Literals.

(** [ToString], which [JSON.parse] applies to its argument. *)
Fixpoint toString (v : JS.value) : string :=
  match v with
  | JS.Undefined => "undefined"
  | JS.Null => "null"
  | JS.Bool true => "true"
  | JS.Bool false => "false"
  | JS.Number n => JS.show_Z n
  | JS.Str s => s
  | JS.Array xs =>
      let item x :=
        match x with
        | JS.Undefined | JS.Null => ""
        | _ => toString x
        end in
      JS.join "," (map item xs)
  | JS.Object _ => "[object Object]"
  end.

Definition syntaxError (text : string) : JS.error :=
  JS.Error "SyntaxError" (text +:+ " is not valid JSON")
           ("SyntaxError: " +:+ text +:+ " is not valid JSON").

Definition parse (v : JS.value) : JS.error + JS.value :=
  let text := toString v in
  if bool_decide (text = "null") then inr JS.Null
  else if bool_decide (text = "true") then inr (JS.Bool true)
  else if bool_decide (text = "false") then inr (JS.Bool false)
  else inl (syntaxError text).

(** A weak tag made of the length of the body. *)
Definition tag (text : string) : string :=
  "W/" +:+ String JS.dquote (JS.show_nat (JS.byteLength text) +:+ String JS.dquote "").

(** Fresh: [If-None-Match: *], no [If-Modified-Since], no
    [Cache-Control]. *)
Definition none_match_any (hs : gmap string string) (_ _ : option string) : bool :=
  bool_decide (hs !! "if-none-match" = Some "*") &&
  bool_decide (hs !! "if-modified-since" = None) &&
  bool_decide (hs !! "cache-control" = None).

#[export] Instance platform : Platform := {
  JSON_parse := parse;
  qs_parse := fun _ => JS.Object [];
  cookie_parse := fun _ => JS.Object [];
  etag := tag;
  fresh := none_match_any
}.

Definition request (m u : string) (hs : list (string * string)) (b : JS.value)
  : Http.request :=
  Http.Request m u (list_to_map hs) b JS.Undefined.

End Literals.

(** * Vocabulary of the properties *)

Import Http Express Middlewares.

(** ** The four bodies and their texts *)

Module Body.

Definition hello_root : JS.value :=
  JS.Object [("status", JS.Bool true); ("message", JS.Str "Hello world, from /")].

Definition hello_api : JS.value :=
  JS.Object [("status", JS.Bool true); ("message", JS.Str "Hello world, from the API!")].

Definition not_found : JS.value :=
  JS.Object [("status", JS.Bool false); ("message", JS.Str "Not found")].

Definition internal_error : JS.value :=
  JS.Object [("status", JS.Bool false); ("message", JS.Str "Internal server error")].

Definition q : string := String JS.dquote "".

(** The text [{"status":s,"message":"m"}]. *)
Definition text (s m : string) : string :=
  "{" +:+ q +:+ "status" +:+ q +:+ ":" +:+ s +:+ "," +:+
  q +:+ "message" +:+ q +:+ ":" +:+ q +:+ m +:+ q +:+ "}".

End Body.

(** ** Reading the end of an exchange *)

(** What the client is answered: status code and payload. *)
Definition answer (out : list string * final) : option (nat * option payload) :=
  match snd out with
  | Sent x => Some (statusCode (res x), sent (res x))
  | Unhandled _ _ => None
  end.

(** The response object at the end of the exchange. *)
Definition response_of (out : list string * final) : option response :=
  match snd out with
  | Sent x => Some (res x)
  | Unhandled _ _ => None
  end.

Definition final_exchange (f : final) : exchange :=
  match f with
  | Sent x => x
  | Unhandled _ x => x
  end.

(** The console at the end of the exchange. *)
Definition console_of (out : list string * final) : console :=
  con (final_exchange (snd out)).

(** The exchange a middleware call leaves behind. *)
Definition passed (o : outcome) : exchange :=
  match o with
  | Next x => x
  | Fail _ x => x
  | Reply x => x
  end.

Definition no_output : console := Console [] [].

(** ** Requests *)

(** [jsonParser] lets the request through: the content type is not the
    JSON one, or the body parses. *)
Definition parses `{Platform} (r : request) : Prop :=
  headers r !! "content-type" <> Some "application/json"
  \/ exists v, JSON_parse (body r) = inr v.

(** A method a [router.get] route accepts: GET, or HEAD by fallback. *)
Definition gets (m : string) : Prop :=
  JS.toLowerCase m = "get" \/ JS.toLowerCase m = "head".




(** The characters that end the pathname of a request target. *)
Definition special (c : ascii) : bool := Ascii.eqb c "?" || Ascii.eqb c "#".

Fixpoint plain (s : string) : bool :=
  match s with
  | EmptyString => true
  | String c s' => negb (special c) && plain s'
  end.

Definition json_type : list (string * string) :=
  [("content-type", "application/json")].

(** ** Stages *)

(** The exchange as the application's first layer receives it. *)
Definition arrive (c : console) (r : request) : exchange :=
  expressInit (Exchange r fresh_response c).

(** After [logger], [cors] and [custom.remove_x_powered_by]. *)
Definition after_headers (c : console) (r : request) : exchange :=
  passed (custom.remove_x_powered_by (passed (cors (passed (logger (arrive c r)))))).

(** After [urlEncodedParser] and [cookieParser]. *)
Definition after_parsers `{Platform} (x : exchange) : exchange :=
  passed (cookieParser (passed (urlEncodedParser x))).

(** Two exchanges that differ at most in [req.body] and [req.cookies]. *)
Definition same_route (x y : exchange) : Prop :=
  method (req x) = method (req y) /\ url (req x) = url (req y) /\
  headers (req x) = headers (req y) /\ res x = res y /\ con x = con y.


(** [h1], and [h2] once [h1] has called [next()]. *)
Definition and_then (h1 h2 : handler) : handler := fun x =>
  match h1 x with
  | Next x' => h2 x'
  | o => o
  end.

(** The server over a sequence of requests: an exchange starts from the
    console the one before it left; nothing else outlives an exchange. *)
Fixpoint serve_all `{Platform} (c : console) (rs : list request)
  : list (option response) :=
  match rs with
  | [] => []
  | r :: rest =>
      response_of (App.serve c r) :: serve_all (console_of (App.serve c r)) rest
  end.

(** ** Invariants of the dispatch *)



(** A route whose handler answers through [res.status(n).json(v)]. *)
Definition json_route `{Platform} (r : route) : Prop :=
  exists n v, forall x,
    route_handle r x = Reply (on_res (fun rs => json (req x) v (status n rs)) x).

(** Equal up to the console. *)
Definition console_apart (x y : exchange) : Prop :=
  req x = req y /\ res x = res y.

Definition outcome_apart (o1 o2 : outcome) : Prop :=
  match o1, o2 with
  | Next x, Next y => console_apart x y
  | Fail e x, Fail e' y => e = e' /\ console_apart x y
  | Reply x, Reply y => console_apart x y
  | _, _ => False
  end.

Definition final_apart (f1 f2 : final) : Prop :=
  match f1, f2 with
  | Sent x, Sent y => console_apart x y
  | Unhandled e x, Unhandled e' y => e = e' /\ console_apart x y
  | _, _ => False
  end.

(** A layer that does not read the console. *)
Definition layer_blind `{Platform} (l : layer) : Prop :=
  forall err x y, console_apart x y ->
    match call (layer_fn l) err x, call (layer_fn l) err y with
    | Some o1, Some o2 => outcome_apart o1 o2
    | None, None => True
    | _, _ => False
    end.

(** ** The rest of the application *)


(** [res.status(n).json(v)] of the response whose request is [rq]. *)
Definition reply_with `{Platform} (rq : request) (n : nat) (v : JS.value)
           (rs : response) : response :=
  json rq v (status n rs).

(** The answer of a router to OPTIONS on the path of a GET route. *)
Definition reply_options `{Platform} (rq : request) (rs : response) : response :=
  send rq "GET,HEAD" (setHeader "Allow" "GET,HEAD" rs).


(** The [ETag] that [res.send] gives a body. *)
Definition entity_tag `{Platform} (text : string) : option string :=
  if bool_decide (etag text = "") then None else Some (etag text).

(** Express finds the request fresh for a 2xx answer with the body
    [text]: the method is GET or HEAD, and [fresh] says so of the request
    headers and the entity tag of the body, there being no
    [Last-Modified]. *)
Definition finds_fresh `{Platform} (r : request) (text : string) : bool :=
  (bool_decide (method r = "GET") || bool_decide (method r = "HEAD")) &&
  fresh (headers r) (entity_tag text) None.

(** The answer to a request that gets the body [v], whose text is
    [text], with status 200: 304 without a body when the request is
    fresh. *)
Definition ok_or_fresh `{Platform} (r : request) (v : JS.value) (text : string)
  : nat * option payload :=
  if finds_fresh r text then (304, Some (Text "")) else (200, Some (Json v)).

(** [fresh] finds no request fresh that carries no validator, neither
    [If-None-Match] nor [If-Modified-Since]: the first thing the library
    checks. *)
Definition stale_without_validator `{Platform} : Prop :=
  forall hs e l,
    hs !! "if-none-match" = None -> hs !! "if-modified-since" = None ->
    fresh hs e l = false.

(** The texts of the two echo bodies. *)
Definition text_root : string := Body.text "true" "Hello world, from /".
Definition text_api : string := Body.text "true" "Hello world, from the API!".


(** [req.body] once the two body parsers have run without failure. *)
Definition parsed_body `{Platform} (r : request) : JS.value :=
  if bool_decide (headers r !! "content-type" = Some "application/json") then
    match JSON_parse (body r) with
    | inr v => v
    | inl _ => body r
    end
  else if bool_decide (headers r !! "content-type"
                       = Some "application/x-www-form-urlencoded") then
    qs_parse (body r)
  else body r.

(** [req.cookies] once [cookieParser] has run. *)
Definition parsed_cookies `{Platform} (r : request) : JS.value :=
  cookie_parse (default "" (headers r !! "cookie")).

(** The exchange the routers receive. *)
Definition routed_exchange `{Platform} (c : console) (r : request) : exchange :=
  Exchange (Request (method r) (url r) (headers r) (parsed_body r) (parsed_cookies r))
           (res (after_headers c r)) (con (after_headers c r)).

(** The path is [/api], or goes on below it, in any letter case. *)
Definition under_api (p : string) : Prop :=
  exists rest, JS.toLowerCase p = "/api" +:+ rest /\
               (rest = "" \/ starts_with_slash rest = true).



Definition six_names : list string :=
  ["logger"; "cors"; "custom.remove_x_powered_by"; "jsonParser";
   "urlEncodedParser"; "cookieParser"].

(** [h] removes the response header [name] and nothing else. *)
Definition removes_header (name : string) (h : handler) : Prop :=
  forall x, exists x',
    h x = Next x' /\ req x' = req x /\ con x' = con x /\
    statusCode (res x') = statusCode (res x) /\ sent (res x') = sent (res x) /\
    (forall same, JS.toLowerCase same = JS.toLowerCase name ->
                  getHeader same (res x') = None) /\
    (forall other, JS.toLowerCase other <> JS.toLowerCase name ->
                   getHeader other (res x') = getHeader other (res x)) /\
    and_then h h x = h x.

(** The names [cors] sets, in lower case. *)
Definition cors_names : list string :=
  ["access-control-allow-origin"; "access-control-allow-methods";
   "access-control-allow-headers"].


(** The pathnames, in lower case, that reach the route of the API router. *)
Definition api_paths : list string :=
  ["/api/echo"; "/api/echo/"; "/api//echo"; "/api//echo/"].








(** The headers [res.send] writes or removes. *)
Definition send_names : list string :=
  ["content-type"; "content-length"; "etag"; "transfer-encoding"].

(** * Lemmas *)

(** ** Headers *)

Lemma getHeader_setHeader_ne name name' v r :
  JS.toLowerCase name <> JS.toLowerCase name' ->
  getHeader name (setHeader name' v r) = getHeader name r.
Proof.
  intros Hne. unfold getHeader, setHeader. cbn [res_headers].
  by rewrite lookup_insert_ne.
Qed.

Lemma getHeader_setHeader_eq name name' v r :
  JS.toLowerCase name = JS.toLowerCase name' ->
  getHeader name (setHeader name' v r) = Some v.
Proof.
  intros He. unfold getHeader, setHeader. cbn [res_headers].
  by rewrite He, lookup_insert_eq.
Qed.

Lemma getHeader_removeHeader_ne name name' r :
  JS.toLowerCase name <> JS.toLowerCase name' ->
  getHeader name (removeHeader name' r) = getHeader name r.
Proof.
  intros Hne. unfold getHeader, removeHeader. cbn [res_headers].
  by rewrite lookup_delete_ne.
Qed.


Lemma lacks_absent name r : getHeader name r = None -> lacks name r = true.
Proof. unfold lacks. by intros ->. Qed.

(** ** [res.send] *)

Section sending.
Context `{Platform}.

Lemma statusCode_entity_headers p r :
  statusCode (entity_headers p r) = statusCode r.
Proof.
  unfold entity_headers. destruct (wire p); [|reflexivity].
  by destruct (_ && _).
Qed.

Lemma getHeader_entity_headers name p r :
  JS.toLowerCase name <> "content-length" -> JS.toLowerCase name <> "etag" ->
  getHeader name (entity_headers p r) = getHeader name r.
Proof.
  intros Hl He. unfold entity_headers. destruct (wire p); [|reflexivity].
  destruct (_ && _); rewrite ?getHeader_setHeader_ne; done.
Qed.

(** The tag of the body, when the response has none yet. *)
Lemma etag_entity_headers p text r :
  wire p = Some text -> getHeader "ETag" r = None ->
  getHeader "ETag" (entity_headers p r) = entity_tag text.
Proof.
  intros Hw He. unfold entity_headers, entity_tag. rewrite Hw, (lacks_absent _ _ He).
  cbn [andb]. case_bool_decide; cbn [negb].
  - by rewrite getHeader_setHeader_ne.
  - by rewrite getHeader_setHeader_eq.
Qed.

Lemma req_fresh_status rq r :
  (statusCode r < 200 \/ 300 <= statusCode r) -> statusCode r <> 304 ->
  req_fresh rq r = false.
Proof.
  intros Hs H304. unfold req_fresh. destruct (negb _ && negb _); [reflexivity|].
  assert (((200 <=? statusCode r) && (statusCode r <? 300)) = false) as ->.
  { apply andb_false_iff. destruct Hs; [left; by apply Nat.leb_gt|right; by apply Nat.ltb_ge]. }
  by rewrite (proj2 (Nat.eqb_neq _ _) H304).
Qed.

Lemma req_fresh_method rq r :
  method rq <> "GET" -> method rq <> "HEAD" -> req_fresh rq r = false.
Proof.
  intros Hg Hh. unfold req_fresh. by rewrite !bool_decide_eq_false_2.
Qed.

Lemma req_fresh_ok rq r :
  200 <= statusCode r < 300 ->
  req_fresh rq r
  = (bool_decide (method rq = "GET") || bool_decide (method rq = "HEAD"))
    && fresh (headers rq) (getHeader "ETag" r) (getHeader "Last-Modified" r).
Proof.
  intros [Hlo Hhi]. unfold req_fresh.
  rewrite (proj2 (Nat.leb_le _ _) Hlo), (proj2 (Nat.ltb_lt _ _) Hhi). cbn [andb orb].
  by destruct (bool_decide (method rq = "GET")), (bool_decide (method rq = "HEAD")).
Qed.

(** A response that is not found fresh goes out as the handler made it. *)
Lemma send_chunk_stale rq p r :
  req_fresh rq (entity_headers p r) = false ->
  statusCode r <> 204 -> statusCode r <> 205 -> statusCode r <> 304 ->
  send_chunk rq p r = end_with p (entity_headers p r).
Proof.
  intros Hf H204 H205 H304. unfold send_chunk. rewrite Hf.
  rewrite statusCode_entity_headers.
  rewrite (proj2 (Nat.eqb_neq _ _) H204), (proj2 (Nat.eqb_neq _ _) H304).
  by rewrite (proj2 (Nat.eqb_neq _ _) H205).
Qed.

(** A response found fresh goes out as a 304: no content type, no
    length, no body. *)
Lemma send_chunk_fresh rq p r :
  req_fresh rq (entity_headers p r) = true ->
  send_chunk rq p r
  = end_with (Text "")
      (removeHeader "Transfer-Encoding"
         (removeHeader "Content-Length"
            (removeHeader "Content-Type" (status 304 (entity_headers p r))))).
Proof. intros Hf. unfold send_chunk. by rewrite Hf. Qed.

Lemma getHeader_end_with name p r : getHeader name (end_with p r) = getHeader name r.
Proof. reflexivity. Qed.

Lemma getHeader_status name n r : getHeader name (status n r) = getHeader name r.
Proof. reflexivity. Qed.

(** [res.send] touches the headers of the entity, no other. *)
Lemma getHeader_send_chunk name rq p r :
  JS.toLowerCase name ∉ send_names ->
  getHeader name (send_chunk rq p r) = getHeader name r.
Proof.
  unfold send_names. rewrite !not_elem_of_cons. intros (Hct & Hcl & Het & Hte & _).
  unfold send_chunk.
  repeat match goal with |- context [if ?b then _ else _] => destruct b end;
    rewrite ?getHeader_end_with, ?getHeader_removeHeader_ne, ?getHeader_setHeader_ne,
      ?getHeader_status, ?getHeader_entity_headers by done; reflexivity.
Qed.


Lemma getHeader_send name rq s r :
  JS.toLowerCase name ∉ send_names ->
  getHeader name (send rq s r) = getHeader name r.
Proof.
  intros Hn. unfold send. rewrite getHeader_send_chunk by exact Hn.
  destruct (lacks _ r); [|reflexivity].
  apply getHeader_setHeader_ne. unfold send_names in Hn.
  rewrite !not_elem_of_cons in Hn. by destruct Hn.
Qed.

(** The status and the chunk of [res.status(n).json(v)] for a status that
    is no success. *)
Lemma reply_with_failure rq n v r :
  300 <= n -> n <> 304 ->
  statusCode (reply_with rq n v r) = n /\ sent (reply_with rq n v r) = Some (Json v).
Proof.
  intros Hn H304. unfold reply_with, json.
  set (r1 := if lacks "Content-Type" (status n r) then _ else _).
  assert (statusCode r1 = n) as Hs by (unfold r1; by destruct (lacks _ _)).
  rewrite send_chunk_stale; rewrite ?Hs; try lia.
  - cbn [end_with statusCode sent]. by rewrite statusCode_entity_headers, Hs.
  - apply req_fresh_status; rewrite statusCode_entity_headers, Hs; [by right|done].
Qed.

(** The status and the chunk of [res.status(200).json(v)] on a response
    without validators. *)
Lemma reply_with_ok rq v text r :
  JS.stringify v = Some text ->
  getHeader "ETag" r = None -> getHeader "Last-Modified" r = None ->
  (statusCode (reply_with rq 200 v r), sent (reply_with rq 200 v r))
  = ok_or_fresh rq v text.
Proof.
  intros Hw He Hl. unfold reply_with, json, ok_or_fresh, finds_fresh.
  set (r1 := if lacks "Content-Type" (status 200 r)
             then setHeader "Content-Type" "application/json; charset=utf-8" (status 200 r)
             else status 200 r).
  assert (statusCode r1 = 200) as Hs by (unfold r1; by destruct (lacks _ _)).
  assert (getHeader "ETag" r1 = None) as He1.
  { unfold r1. destruct (lacks _ _); [|exact He]. by rewrite getHeader_setHeader_ne. }
  assert (getHeader "Last-Modified" r1 = None) as Hl1.
  { unfold r1. destruct (lacks _ _); [|exact Hl]. by rewrite getHeader_setHeader_ne. }
  assert (req_fresh rq (entity_headers (Json v) r1)
          = (bool_decide (method rq = "GET") || bool_decide (method rq = "HEAD"))
            && fresh (headers rq) (entity_tag text) None) as Hf.
  { rewrite req_fresh_ok by (rewrite statusCode_entity_headers, Hs; lia).
    rewrite (etag_entity_headers (Json v) text r1 Hw He1).
    by rewrite getHeader_entity_headers, Hl1. }
  destruct ((bool_decide (method rq = "GET") || bool_decide (method rq = "HEAD"))
            && fresh (headers rq) (entity_tag text) None).
  - by rewrite (send_chunk_fresh _ _ _ Hf).
  - rewrite (send_chunk_stale _ _ _ Hf) by (rewrite Hs; lia).
    cbn [end_with statusCode sent]. by rewrite statusCode_entity_headers, Hs.
Qed.

(** The status and the chunk of a router's answer to OPTIONS. *)
Lemma reply_options_sent rq r :
  method rq = "OPTIONS" ->
  statusCode r <> 204 -> statusCode r <> 205 -> statusCode r <> 304 ->
  statusCode (reply_options rq r) = statusCode r /\
  sent (reply_options rq r) = Some (Text "GET,HEAD") /\
  getHeader "Allow" (reply_options rq r) = Some "GET,HEAD".
Proof.
  intros Hm H204 H205 H304. unfold reply_options.
  rewrite getHeader_send by (unfold send_names; rewrite !not_elem_of_cons;
    repeat split; first [discriminate | apply not_elem_of_nil]).
  rewrite getHeader_setHeader_eq by reflexivity. unfold send.
  set (r1 := if lacks "Content-Type" _ then _ else _).
  assert (statusCode r1 = statusCode r) as Hs by (unfold r1; by destruct (lacks _ _)).
  rewrite send_chunk_stale; rewrite ?Hs; try done.
  - cbn [end_with statusCode sent]. by rewrite statusCode_entity_headers, Hs.
  - apply req_fresh_method; rewrite Hm; discriminate.
Qed.



End sending.

(** ** The framework *)

Section framework.
Context `{Platform}.

Lemma restore_nil x : restore "" false x = x.
Proof. destruct x as [[] ? ?]. reflexivity. Qed.

Lemma trim_prefix_nil path x : trim_prefix "" path x = Some (x, false).
Proof. reflexivity. Qed.

(** A layer mounted at [/] sees every request, with [req.url] as it is. *)
Lemma app_handle_slash name fn rest err x called :
  app_handle (Layer name "/" fn :: rest) err x called =
  match call fn err x with
  | None => app_handle rest err x called
  | Some (Next x2) => app_handle rest None x2 (called ++ [name])
  | Some (Fail e x2) => app_handle rest (Some e) x2 (called ++ [name])
  | Some (Reply x2) => (called ++ [name], Sent x2)
  end.
Proof.
  cbn [app_handle layer_path layer_fn layer_name].
  change (mount_match "/" (getPathname (url (req x)))) with (Some "").
  cbv beta iota. rewrite trim_prefix_nil.
  destruct (call fn err x) as [[x2|e x2|x2]|]; try reflexivity;
    rewrite restore_nil; reflexivity.
Qed.

(** The names the result carries only accumulate: the end of the exchange
    does not depend on them. *)
Lemma app_handle_snd stack : forall err x c1 c2,
  snd (app_handle stack err x c1) = snd (app_handle stack err x c2).
Proof.
  induction stack as [|l rest IH]; intros err x c1 c2; [reflexivity|].
  cbn [app_handle].
  destruct (mount_match _ _) as [lp|]; [|apply IH].
  destruct (trim_prefix _ _ _) as [[x1 sa]|]; [|apply IH].
  destruct (call _ _ _) as [[x2|e x2|x2]|]; try apply IH. reflexivity.
Qed.

(** One turn of the loop. *)
Lemma app_handle_cons l rest err x called :
  app_handle (l :: rest) err x called =
  match mount_match (layer_path l) (getPathname (url (req x))) with
  | None => app_handle rest err x called
  | Some layerPath =>
      match trim_prefix layerPath (getPathname (url (req x))) x with
      | None => app_handle rest err x called
      | Some (x1, slashAdded) =>
          match call (layer_fn l) err x1 with
          | None => app_handle rest err x called
          | Some (Next x2) =>
              app_handle rest None (restore layerPath slashAdded x2)
                         (called ++ [layer_name l])
          | Some (Fail e x2) =>
              app_handle rest (Some e) (restore layerPath slashAdded x2)
                         (called ++ [layer_name l])
          | Some (Reply x2) => (called ++ [layer_name l], Sent x2)
          end
      end
  end.
Proof. reflexivity. Qed.

(** With a failure pending, a layer that is no error middleware is passed
    over, wherever it is mounted. *)
Lemma app_handle_pending l rest e x called :
  (forall y, call (layer_fn l) (Some e) y = None) ->
  app_handle (l :: rest) (Some e) x called = app_handle rest (Some e) x called.
Proof.
  intros Hskip. rewrite app_handle_cons.
  destruct (mount_match _ _) as [lp|]; [|reflexivity].
  destruct (trim_prefix _ _ _) as [[x1 sa]|]; [|reflexivity].
  by rewrite Hskip.
Qed.

End framework.

(** ** Strings *)

Lemma append_cons c a b : String c a +:+ b = String c (a +:+ b).
Proof. reflexivity. Qed.

Lemma append_nil_l b : "" +:+ b = b.
Proof. reflexivity. Qed.

Lemma append_nil_r a : a +:+ "" = a.
Proof. induction a as [|c a IH]; [reflexivity|]. by rewrite append_cons, IH. Qed.

Lemma append_assoc a b c : (a +:+ b) +:+ c = a +:+ (b +:+ c).
Proof. induction a as [|d a IH]; [reflexivity|]. by rewrite !append_cons, IH. Qed.

Lemma toLowerCase_app a b :
  JS.toLowerCase (a +:+ b) = JS.toLowerCase a +:+ JS.toLowerCase b.
Proof.
  induction a as [|c a IH]; [reflexivity|].
  rewrite append_cons. cbn [JS.toLowerCase]. by rewrite IH.
Qed.

Lemma slice_length_app a b : JS.slice (String.length a) (a +:+ b) = b.
Proof. induction a as [|c a IH]; [by destruct b|]. exact IH. Qed.

Lemma get_length_app a b :
  String.get (String.length a) (a +:+ b) = String.get 0 b.
Proof. induction a as [|c a IH]; [reflexivity|]. exact IH. Qed.

(** ** Pathnames *)

Lemma getPathname_split u :
  exists rest, u = getPathname u +:+ rest /\ getPathname rest = "".
Proof.
  induction u as [|c u (rest & Hu & Hrest)].
  - by exists "".
  - cbn [getPathname]. destruct (Ascii.eqb c "?" || Ascii.eqb c "#") eqn:Hc.
    + exists (String c u). split; [reflexivity|]. cbn [getPathname]. by rewrite Hc.
    + exists rest. split; [|done]. rewrite append_cons. by rewrite <- Hu.
Qed.

Lemma plain_getPathname u : plain (getPathname u) = true.
Proof.
  induction u as [|c u IH]; [reflexivity|]. cbn [getPathname].
  destruct (Ascii.eqb c "?" || Ascii.eqb c "#") eqn:Hc; [reflexivity|].
  cbn [plain]. unfold special. by rewrite Hc, IH.
Qed.

Lemma plain_app a b : plain (a +:+ b) = plain a && plain b.
Proof.
  induction a as [|c a IH]; [reflexivity|].
  rewrite append_cons. cbn [plain]. rewrite IH. by rewrite andb_assoc.
Qed.

Lemma getPathname_app a b :
  plain a = true -> getPathname (a +:+ b) = a +:+ getPathname b.
Proof.
  induction a as [|c a IH]; [reflexivity|]. cbn [plain]. intros [Hc Ha]%andb_true_iff.
  rewrite !append_cons. cbn [getPathname]. unfold special in Hc.
  apply negb_true_iff in Hc. rewrite Hc. by rewrite IH.
Qed.

(** ** Matching *)

Lemma strip_prefix_ci_spec q : forall path m rest,
  strip_prefix_ci q path = Some (m, rest) ->
  path = m +:+ rest /\ JS.toLowerCase m = JS.toLowerCase q.
Proof.
  induction q as [|a q IH]; intros path m rest.
  - cbn. intros [= <- <-]. done.
  - cbn [strip_prefix_ci]. destruct path as [|b path]; [done|].
    destruct (Ascii.eqb (JS.lower a) (JS.lower b)) eqn:Hab; [|done].
    destruct (strip_prefix_ci q path) as [[m' rest']|] eqn:Hq; [|done].
    intros [= <- <-]. apply IH in Hq as [-> Hm]. split; [reflexivity|].
    cbn [JS.toLowerCase]. apply Ascii.eqb_eq in Hab. by rewrite Hm, Hab.
Qed.


Lemma starts_with_slash_inv s :
  starts_with_slash s = true -> exists s', s = String "/" s'.
Proof.
  destruct s as [|c s]; [done|]. cbn. intros ->%Ascii.eqb_eq. by exists s.
Qed.

Lemma mount_match_spec pattern p lp :
  pattern <> "/" ->
  mount_match pattern p = Some lp ->
  exists rem sep,
    p = lp +:+ rem /\ (rem = "" \/ starts_with_slash rem = true) /\
    (sep = "" \/ sep = "/") /\
    JS.toLowerCase lp = JS.toLowerCase (loose pattern) +:+ sep.
Proof.
  intros Hne. unfold mount_match. rewrite bool_decide_eq_false_2 by exact Hne.
  destruct (strip_prefix_ci (loose pattern) p) as [[m rest]|] eqn:Hq; [|done].
  apply strip_prefix_ci_spec in Hq as [-> Hm].
  destruct rest as [|c rest].
  - intros [= <-]. exists "", "". rewrite !append_nil_r. auto.
  - destruct (Ascii.eqb c "/") eqn:Hc; [|done]. apply Ascii.eqb_eq in Hc as ->.
    destruct rest as [|d rest].
    + intros [= <-]. exists "", "/". rewrite toLowerCase_app, Hm, !append_nil_r. auto.
    + destruct (Ascii.eqb d "/") eqn:Hd.
      * intros [= <-]. exists (String d rest), "/".
        rewrite toLowerCase_app, Hm, append_assoc. cbn [starts_with_slash].
        rewrite Hd. repeat split; auto.
      * intros [= <-]. exists (String "/" (String d rest)), "".
        rewrite Hm, append_nil_r. repeat split; auto.
Qed.

Lemma not_slash_of_tail qrest :
  getPathname qrest = "" -> starts_with_slash qrest = false.
Proof.
  destruct qrest as [|c q]; [done|]. cbn [getPathname starts_with_slash].
  destruct (Ascii.eqb c "/") eqn:Hc; [|done].
  apply Ascii.eqb_eq in Hc as ->. done.
Qed.

(** Cutting a mount point off [req.url] and putting it back. *)
Lemma trim_prefix_spec lp rem x x1 sa :
  getPathname (url (req x)) = lp +:+ rem ->
  lp <> "" ->
  rem = "" \/ starts_with_slash rem = true ->
  trim_prefix lp (getPathname (url (req x))) x = Some (x1, sa) ->
  restore lp sa x1 = x /\
  method (req x1) = method (req x) /\ res x1 = res x /\ con x1 = con x /\
  getPathname (url (req x1)) = (if bool_decide (rem = "") then "/" else rem).
Proof.
  intros Hp Hlp Hrem. destruct (getPathname_split (url (req x))) as (qrest & Hu & Hq).
  pose proof (plain_getPathname (url (req x))) as Hplain.
  rewrite Hp in Hu, Hplain |- *. rewrite append_assoc in Hu.
  unfold trim_prefix. rewrite bool_decide_eq_false_2 by exact Hlp.
  rewrite get_length_app, Hu, slice_length_app.
  destruct x as [[m u hs b ck] rs cn]. cbn [req url] in *. subst u.
  destruct Hrem as [->|Hs].
  - cbn [String.get]. rewrite append_nil_l, (not_slash_of_tail _ Hq).
    intros [= <- <-]. unfold restore. cbn [req url on_req set_url method headers body cookies res con].
    rewrite (bool_decide_eq_false_2 (lp = "")) by exact Hlp.
    cbn [JS.slice]. repeat split.
    rewrite append_cons, append_nil_l. cbn [getPathname Ascii.eqb Bool.eqb orb].
    by rewrite Hq.
  - destruct (starts_with_slash_inv _ Hs) as (rem' & ->).
    cbn [String.get Ascii.eqb Bool.eqb negb andb]. rewrite append_cons.
    cbn [starts_with_slash Ascii.eqb Bool.eqb].
    intros [= <- <-]. unfold restore. cbn [req url on_req set_url method headers body cookies res con].
    rewrite (bool_decide_eq_false_2 (lp = "")) by exact Hlp.
    repeat split.
    rewrite (bool_decide_eq_false_2 (String "/" rem' = "")) by done.
    rewrite plain_app in Hplain. apply andb_true_iff in Hplain as [_ Hplain].
    rewrite <- append_cons.
    by rewrite getPathname_app, Hq, append_nil_r.
Qed.

(** The other direction: matching from the lower-case path. *)
Lemma lower_slash c : JS.lower c = "/"%char -> c = "/"%char.
Proof.
  destruct c as [[] [] [] [] [] [] [] []]; vm_compute; intros Hc;
    first [reflexivity | discriminate Hc].
Qed.

Lemma toLowerCase_nil s : JS.toLowerCase s = "" -> s = "".
Proof. by destruct s. Qed.

Lemma toLowerCase_slash s : JS.toLowerCase s = "/" -> s = "/".
Proof.
  destruct s as [|c s]; [done|]. cbn [JS.toLowerCase].
  intros [= Hc Hs]. by rewrite (lower_slash c Hc), (toLowerCase_nil s Hs).
Qed.

Lemma strip_prefix_ci_complete q : forall path lr,
  JS.toLowerCase path = JS.toLowerCase q +:+ lr ->
  exists m rest, strip_prefix_ci q path = Some (m, rest) /\ JS.toLowerCase rest = lr.
Proof.
  induction q as [|a q IH]; intros path lr Hp.
  - by exists "", path.
  - destruct path as [|b path]; [done|]. cbn [JS.toLowerCase] in Hp.
    rewrite append_cons in Hp. injection Hp as Hb Hp.
    destruct (IH path lr Hp) as (m & rest & Hm & Hrest).
    exists (String b m), rest. split; [|exact Hrest].
    cbn [strip_prefix_ci]. rewrite Hb, Ascii.eqb_refl, Hm. reflexivity.
Qed.

Lemma route_match_ci pattern path :
  JS.toLowerCase path = JS.toLowerCase (loose pattern) \/
  JS.toLowerCase path = JS.toLowerCase (loose pattern) +:+ "/" ->
  route_match pattern path = true.
Proof.
  intros Hp. unfold route_match.
  assert (exists lr, JS.toLowerCase path = JS.toLowerCase (loose pattern) +:+ lr /\
                     (lr = "" \/ lr = "/")) as (lr & Hlr & Hcase).
  { destruct Hp as [Hp|Hp]; [exists ""|exists "/"]; rewrite ?append_nil_r; auto. }
  destruct (strip_prefix_ci_complete _ _ _ Hlr) as (m & rest & -> & Hrest).
  destruct Hcase as [->| ->].
  - by rewrite (toLowerCase_nil _ Hrest).
  - by rewrite (toLowerCase_slash _ Hrest).
Qed.

Lemma mount_api_ci p lr :
  JS.toLowerCase p = "/api" +:+ lr -> lr = "/echo" \/ lr = "/echo/" ->
  exists m rest,
    p = m +:+ rest /\ mount_match "/api" p = Some m /\ m <> "" /\
    starts_with_slash rest = true /\ JS.toLowerCase rest = lr.
Proof.
  intros Hp Hlr.
  destruct (strip_prefix_ci_complete "/api" p lr Hp) as (m & rest & Hm & Hrest).
  destruct (strip_prefix_ci_spec _ _ _ _ Hm) as [Hsplit Hlow].
  exists m, rest. split; [exact Hsplit|].
  assert (m <> "") as Hne by (intros ->; discriminate Hlow).
  assert (exists d rest', rest = String "/" (String d rest') /\ Ascii.eqb d "/" = false)
    as (d & rest' & -> & Hd).
  { destruct rest as [|c [|d rest']]; [destruct Hlr; subst lr; discriminate Hrest..|].
    exists d, rest'.
    assert (JS.lower c = "/"%char /\ JS.lower d = "e"%char) as [Hc Hd].
    { destruct Hlr; subst lr; cbn [JS.toLowerCase] in Hrest; by injection Hrest. }
    rewrite (lower_slash c Hc). split; [reflexivity|].
    apply Ascii.eqb_neq. intros ->. discriminate Hd. }
  unfold mount_match. change (loose "/api") with "/api".
  rewrite bool_decide_eq_false_2 by done. rewrite Hm.
  cbn [Ascii.eqb Bool.eqb]. rewrite Hd. done.
Qed.

Lemma trim_prefix_url lp p x x1 sa :
  trim_prefix lp p x = Some (x1, sa) -> exists u, x1 = on_req (set_url u) x.
Proof.
  unfold trim_prefix. case_bool_decide.
  - intros [= <- <-]. exists (url (req x)). by destruct x as [[] ? ?].
  - destruct (String.get _ _) as [ch|].
    + destruct (negb _ && negb _); [done|].
      destruct (starts_with_slash _); intros [= <- <-]; by eexists.
    + destruct (starts_with_slash _); intros [= <- <-]; by eexists.
Qed.

Lemma trim_prefix_headers lp p x x1 sa :
  trim_prefix lp p x = Some (x1, sa) -> headers (req x1) = headers (req x).
Proof. by intros (u & ->)%trim_prefix_url. Qed.

Lemma trim_prefix_total lp rem x :
  getPathname (url (req x)) = lp +:+ rem ->
  starts_with_slash rem = true ->
  exists x1 sa, trim_prefix lp (getPathname (url (req x))) x = Some (x1, sa).
Proof.
  intros Hp (rem' & ->)%starts_with_slash_inv. unfold trim_prefix.
  case_bool_decide; [by eexists _, _|].
  rewrite Hp, get_length_app. cbn [String.get Ascii.eqb Bool.eqb negb andb].
  destruct (starts_with_slash _); by eexists _, _.
Qed.

(** ** Below the API mount point *)



Lemma toLowerCase_starts_with_slash s :
  starts_with_slash s = true -> starts_with_slash (JS.toLowerCase s) = true.
Proof. intros (s' & ->)%starts_with_slash_inv. reflexivity. Qed.


Lemma under_api_of_mount p lp :
  mount_match "/api" p = Some lp -> under_api p.
Proof.
  intros Hmm. apply mount_match_spec in Hmm as (rem & sep & Hp & Hrem & Hsep & Hlow); [|done].
  change (JS.toLowerCase (loose "/api")) with "/api" in Hlow.
  exists (sep +:+ JS.toLowerCase rem). split.
  - by rewrite Hp, toLowerCase_app, Hlow, append_assoc.
  - destruct Hsep as [->| ->]; [|by right]. rewrite append_nil_l.
    destruct Hrem as [->|Hs]; [by left|right]. by apply toLowerCase_starts_with_slash.
Qed.



(** The four paths below [/api] that reach the route. *)
Lemma mount_api_doubled p lr :
  JS.toLowerCase p = "/api" +:+ lr -> lr = "//echo" \/ lr = "//echo/" ->
  exists m rest,
    p = m +:+ rest /\ mount_match "/api" p = Some m /\ m <> "" /\
    starts_with_slash rest = true /\
    (JS.toLowerCase rest = "/echo" \/ JS.toLowerCase rest = "/echo/").
Proof.
  intros Hp Hlr.
  destruct (strip_prefix_ci_complete "/api" p lr Hp) as (m & rest & Hm & Hrest).
  destruct (strip_prefix_ci_spec _ _ _ _ Hm) as [Hsplit Hlow].
  assert (exists rest', rest = String "/" (String "/" rest') /\
                        (JS.toLowerCase rest' = "echo" \/ JS.toLowerCase rest' = "echo/"))
    as (rest' & -> & Hrest').
  { destruct rest as [|c [|d rest']]; [destruct Hlr; subst lr; discriminate Hrest..|].
    exists rest'.
    assert (JS.lower c = "/"%char /\ JS.lower d = "/"%char /\
            (JS.toLowerCase rest' = "echo" \/ JS.toLowerCase rest' = "echo/"))
      as (Hc & Hd & Hr).
    { destruct Hlr; subst lr; cbn [JS.toLowerCase] in Hrest; injection Hrest; auto. }
    by rewrite (lower_slash c Hc), (lower_slash d Hd). }
  exists (m +:+ "/"), (String "/" rest'). split; [|split; [|split; [|split]]].
  - rewrite Hsplit, append_assoc. reflexivity.
  - unfold mount_match. change (loose "/api") with "/api".
    rewrite bool_decide_eq_false_2 by done. by rewrite Hm.
  - by destruct m.
  - reflexivity.
  - cbn [JS.toLowerCase]. destruct Hrest' as [->| ->]; auto.
Qed.

Lemma mount_api_routed p :
  JS.toLowerCase p ∈ api_paths ->
  exists m rest,
    p = m +:+ rest /\ mount_match "/api" p = Some m /\ m <> "" /\
    starts_with_slash rest = true /\
    (JS.toLowerCase rest = "/echo" \/ JS.toLowerCase rest = "/echo/").
Proof.
  unfold api_paths. rewrite !elem_of_cons, elem_of_nil.
  intros [Hp|[Hp|[Hp|[Hp|[]]]]].
  - destruct (mount_api_ci p "/echo" Hp) as (m & rest & ? & ? & ? & ? & ?); [by left|].
    exists m, rest. auto 10.
  - destruct (mount_api_ci p "/echo/" Hp) as (m & rest & ? & ? & ? & ? & ?); [by right|].
    exists m, rest. auto 10.
  - apply (mount_api_doubled p "//echo" Hp). by left.
  - apply (mount_api_doubled p "//echo/" Hp). by right.
Qed.


Lemma set_url_same x : on_req (set_url (url (req x))) x = x.
Proof. by destruct x as [[] ? ?]. Qed.

(** ** The pipeline, stage by stage *)

Section pipeline.
Context `{Platform}.

Lemma app_layers :
  App.app =
  [ Layer "logger" "/" (Middleware logger);
    Layer "cors" "/" (Middleware cors);
    Layer "custom.remove_x_powered_by" "/" (Middleware custom.remove_x_powered_by);
    Layer "jsonParser" "/" (Middleware jsonParser);
    Layer "urlEncodedParser" "/" (Middleware urlEncodedParser);
    Layer "cookieParser" "/" (Middleware cookieParser);
    Layer "api" "/api" (Mounted Api.router);
    Layer "router" "/" (Mounted Routers.router);
    Layer "notFound" "/" (Middleware notFound);
    Layer "errorHandler" "/" (ErrorMiddleware errorHandler) ].
Proof. reflexivity. Qed.

Lemma serve_head c r :
  App.serve c r =
  app_handle (drop 3 App.app) None (after_headers c r)
             ["logger"; "cors"; "custom.remove_x_powered_by"].
Proof.
  unfold App.serve, handle. rewrite app_layers.
  do 3 (rewrite app_handle_slash;
        cbn [call logger cors custom.remove_x_powered_by]).
  reflexivity.
Qed.

Lemma req_after_headers c r : req (after_headers c r) = r.
Proof. reflexivity. Qed.

Lemma jsonParser_passes x :
  parses (req x) ->
  exists v, jsonParser x = Next (on_req (set_body v) x) /\
            (v = body (req x) \/ JSON_parse (body (req x)) = inr v).
Proof.
  intros [Hct|[v Hv]]; unfold jsonParser.
  - rewrite bool_decide_eq_false_2 by exact Hct.
    exists (body (req x)). split; [|by left].
    destruct x as [[] ? ?]; reflexivity.
  - case_bool_decide.
    + rewrite Hv. exists v. split; [reflexivity|by right].
    + exists (body (req x)). split; [|by left].
      destruct x as [[] ? ?]; reflexivity.
Qed.

Lemma after_parsers_route x : same_route (after_parsers x) x.
Proof.
  unfold after_parsers, cookieParser, urlEncodedParser.
  case_bool_decide; repeat split.
Qed.

Lemma serve_passes c r :
  parses r ->
  exists x, same_route x (after_headers c r) /\
    App.serve c r =
    app_handle (drop 6 App.app) None x
      ["logger"; "cors"; "custom.remove_x_powered_by"; "jsonParser";
       "urlEncodedParser"; "cookieParser"].
Proof.
  intros Hp. rewrite serve_head, app_layers. cbn [drop].
  destruct (jsonParser_passes (after_headers c r) Hp) as (v & Hv & _).
  rewrite app_handle_slash. cbn [call]. rewrite Hv. cbv beta iota.
  exists (after_parsers (on_req (set_body v) (after_headers c r))). split.
  - destruct (after_parsers_route (on_req (set_body v) (after_headers c r)))
      as (Hm & Hu & Hh & Hr & Hc).
    unfold same_route. rewrite Hm, Hu, Hh, Hr, Hc. repeat split.
  - rewrite app_handle_slash. cbn [call].
    unfold after_parsers, urlEncodedParser.
    case_bool_decide; cbv beta iota; rewrite app_handle_slash; reflexivity.
Qed.

Lemma serve_raises c r e :
  headers r !! "content-type" = Some "application/json" ->
  JSON_parse (body r) = inl e ->
  App.serve c r =
  (["logger"; "cors"; "custom.remove_x_powered_by"; "jsonParser"; "errorHandler"],
   Sent (passed (errorHandler e (after_headers c r)))).
Proof.
  intros Hct He. rewrite serve_head, app_layers. cbn [drop].
  rewrite app_handle_slash. cbn [call].
  unfold jsonParser at 1. rewrite req_after_headers, Hct, He.
  rewrite bool_decide_eq_true_2 by reflexivity. cbv beta iota.
  do 5 (rewrite app_handle_pending by reflexivity).
  rewrite app_handle_slash. reflexivity.
Qed.

Lemma handles_method_gets path h m :
  gets m -> handles_method (Route path "get" h) m = true.
Proof.
  unfold handles_method. cbn [route_method].
  intros [->| ->]; reflexivity.
Qed.


Lemma route_root x called :
  gets (method (req x)) ->
  getPathname (url (req x)) = "/" ->
  app_handle (drop 6 App.app) None x called =
  (called ++ ["router"], Sent (passed (RoutersLib.echo x))).
Proof.
  intros Hm Hp. rewrite app_layers. cbn [drop].
  rewrite app_handle_cons. cbn [layer_path]. rewrite Hp.
  change (mount_match "/api" "/") with (@None string). cbv beta iota.
  rewrite app_handle_slash. cbn [call].
  unfold Routers.router, get, new_router. cbn [app router_handle route_path].
  rewrite Hp. change (route_match "/" "/") with true. cbv beta iota.
  rewrite handles_method_gets by exact Hm. reflexivity.
Qed.


Lemma route_api_ci x called :
  gets (method (req x)) ->
  JS.toLowerCase (getPathname (url (req x))) = "/api/echo" \/
  JS.toLowerCase (getPathname (url (req x))) = "/api/echo/" ->
  exists x1, method (req x1) = method (req x) /\ headers (req x1) = headers (req x) /\
    res x1 = res x /\
    app_handle (drop 6 App.app) None x called =
    (called ++ ["api"], Sent (passed (ApiLib.echo x1))).
Proof.
  intros Hm Hp.
  assert (exists lr, JS.toLowerCase (getPathname (url (req x))) = "/api" +:+ lr /\
                     (lr = "/echo" \/ lr = "/echo/")) as (lr & Hlr & Hcase).
  { destruct Hp as [Hp|Hp]; [exists "/echo"|exists "/echo/"]; auto. }
  destruct (mount_api_ci _ _ Hlr Hcase) as (m & rest & Hsplit & Hmount & Hne & Hs & Hrest).
  destruct (trim_prefix_total m rest x Hsplit Hs) as (x1 & sa & Ht).
  destruct (trim_prefix_spec m rest x x1 sa Hsplit Hne (or_intror Hs) Ht)
    as (_ & Hm1 & Hr1 & _ & Hp1).
  assert (rest <> "") as Hrne by (intros ->; discriminate Hs).
  rewrite bool_decide_eq_false_2 in Hp1 by exact Hrne.
  exists x1. split; [exact Hm1|]. split; [by apply (trim_prefix_headers _ _ _ _ _ Ht)|].
  split; [exact Hr1|].
  rewrite app_layers. cbn [drop].
  rewrite app_handle_cons. cbn [layer_path layer_fn layer_name].
  rewrite Hmount, Ht. cbn [call].
  unfold Api.router, get, new_router. cbn [app router_handle route_path].
  rewrite Hp1, route_match_ci.
  - rewrite Hm1, handles_method_gets by exact Hm. reflexivity.
  - change (JS.toLowerCase (loose "/echo")) with "/echo". rewrite Hrest.
    destruct Hcase as [->| ->]; auto.
Qed.

(** A request below [/api] that reaches the route of the API router. *)
Lemma route_api_any x called :
  JS.toLowerCase (getPathname (url (req x))) ∈ api_paths ->
  exists x1, method (req x1) = method (req x) /\ headers (req x1) = headers (req x) /\
    res x1 = res x /\
    (gets (method (req x)) ->
     app_handle (drop 6 App.app) None x called =
     (called ++ ["api"], Sent (passed (ApiLib.echo x1)))) /\
    (method (req x) = "OPTIONS" ->
     app_handle (drop 6 App.app) None x called =
     (called ++ ["api"], Sent (sendOptionsResponse ["GET"; "HEAD"] x1))).
Proof.
  intros Hp.
  destruct (mount_api_routed _ Hp) as (m & rest & Hsplit & Hmount & Hne & Hs & Hrest).
  destruct (trim_prefix_total m rest x Hsplit Hs) as (x1 & sa & Ht).
  destruct (trim_prefix_spec m rest x x1 sa Hsplit Hne (or_intror Hs) Ht)
    as (_ & Hm1 & Hr1 & _ & Hp1).
  assert (rest <> "") as Hrne by (intros ->; discriminate Hs).
  rewrite bool_decide_eq_false_2 in Hp1 by exact Hrne.
  assert (route_match "/echo" (getPathname (url (req x1))) = true) as Hrm.
  { rewrite Hp1. apply route_match_ci.
    change (JS.toLowerCase (loose "/echo")) with "/echo". destruct Hrest as [->| ->]; auto. }
  exists x1. split; [exact Hm1|]. split; [by apply (trim_prefix_headers _ _ _ _ _ Ht)|].
  split; [exact Hr1|].
  split; intros Hm; rewrite app_layers; cbn [drop];
    rewrite app_handle_cons; cbn [layer_path layer_fn layer_name];
    rewrite Hmount, Ht; cbn [call];
    unfold Api.router, get, new_router; cbn [app router_handle route_path];
    rewrite Hrm, Hm1.
  - rewrite handles_method_gets by exact Hm. reflexivity.
  - rewrite Hm.
    change (handles_method (Route "/echo" "get" ApiLib.echo) "OPTIONS") with false.
    cbv beta iota. rewrite bool_decide_eq_true_2 by reflexivity.
    unfold router_done. rewrite Hm1, Hm. reflexivity.
Qed.

Lemma route_root_options x called :
  method (req x) = "OPTIONS" ->
  getPathname (url (req x)) = "/" ->
  app_handle (drop 6 App.app) None x called =
  (called ++ ["router"], Sent (sendOptionsResponse ["GET"; "HEAD"] x)).
Proof.
  intros Hm Hp. rewrite app_layers. cbn [drop].
  rewrite app_handle_cons. cbn [layer_path]. rewrite Hp.
  change (mount_match "/api" "/") with (@None string). cbv beta iota.
  rewrite app_handle_slash. cbn [call].
  unfold Routers.router, get, new_router. cbn [app router_handle route_path].
  rewrite Hp, Hm. change (route_match "/" "/") with true. cbv beta iota.
  change (handles_method (Route "/" "get" RoutersLib.echo) "OPTIONS") with false.
  cbv beta iota. rewrite bool_decide_eq_true_2 by reflexivity.
  unfold router_done. rewrite Hm. reflexivity.
Qed.

Lemma router_done_nil x : router_done [] x = Next x.
Proof.
  unfold router_done. rewrite (bool_decide_eq_true_2 ([] = [])) by reflexivity.
  by rewrite andb_false_r.
Qed.














Lemma api_json_routes : Forall json_route Api.router.
Proof. repeat apply Forall_cons_2; [|apply Forall_nil_2]. by eexists _, _. Qed.

Lemma root_json_routes : Forall json_route Routers.router.
Proof. repeat apply Forall_cons_2; [|apply Forall_nil_2]. by eexists _, _. Qed.





(** ** Call order *)


(** ** The console does not reach the response *)

Lemma trim_prefix_blind lp p rq rs c1 c2 :
  match trim_prefix lp p (Exchange rq rs c1), trim_prefix lp p (Exchange rq rs c2) with
  | Some (x1, s1), Some (x2, s2) => s1 = s2 /\ console_apart x1 x2
  | None, None => True
  | _, _ => False
  end.
Proof.
  unfold trim_prefix. case_bool_decide; [done|].
  destruct (String.get _ _) as [ch|].
  - destruct (negb _ && negb _); [done|]. cbn [req url].
    destruct (starts_with_slash _); done.
  - cbn [req url]. destruct (starts_with_slash _); done.
Qed.

Lemma restore_blind lp sa x y :
  console_apart x y -> console_apart (restore lp sa x) (restore lp sa y).
Proof.
  intros [Hq Hs]. unfold restore, console_apart, on_req. cbn [req res].
  by rewrite Hq, Hs.
Qed.

Lemma app_handle_blind stack :
  Forall layer_blind stack ->
  forall err x y called, console_apart x y ->
    fst (app_handle stack err x called) = fst (app_handle stack err y called) /\
    final_apart (snd (app_handle stack err x called)) (snd (app_handle stack err y called)).
Proof.
  induction 1 as [|l rest Hl _ IH]; intros err x y called Hxy.
  - cbn. done.
  - rewrite !app_handle_cons.
    destruct Hxy as [Hq Hs]. rewrite Hq.
    destruct (mount_match _ _) as [lp|]; [|by apply IH].
    destruct x as [rq rs c1], y as [rq' rs' c2]. cbn [req res] in Hq, Hs.
    subst rq' rs'. cbn [req].
    pose proof (trim_prefix_blind lp (getPathname (url rq)) rq rs c1 c2) as Ht.
    destruct (trim_prefix lp _ (Exchange rq rs c1)) as [[x1 s1]|],
             (trim_prefix lp _ (Exchange rq rs c2)) as [[x2 s2]|];
      try done; [|by apply IH].
    destruct Ht as [<- Hx12]. specialize (Hl err x1 x2 Hx12).
    destruct (call _ _ x1) as [o1|], (call _ _ x2) as [o2|]; try done; [|by apply IH].
    destruct o1 as [a|e a|a], o2 as [b|e' b|b]; try done; cbn in Hl.
    + by apply IH, restore_blind.
    + destruct Hl as [<- Hl]. by apply IH, restore_blind.
Qed.

Lemma router_handle_blind stack :
  Forall json_route stack ->
  forall options x y, console_apart x y ->
    outcome_apart (router_handle stack options x) (router_handle stack options y).
Proof.
  induction 1 as [|r rest (n & v & Hr) _ IH]; intros options x y Hxy.
  - cbn [router_handle]. unfold router_done. destruct Hxy as [Hq Hs]. rewrite Hq.
    destruct (_ && _); cbn; [|done].
    unfold console_apart, sendOptionsResponse, on_res. cbn. by rewrite Hq, Hs.
  - cbn [router_handle]. pose proof Hxy as [Hq Hs]. rewrite Hq.
    destruct (route_match _ _); [|by apply IH].
    destruct (handles_method _ _); [|by apply IH].
    rewrite !Hr. cbn. unfold console_apart, on_res. cbn. by rewrite Hq, Hs.
Qed.

Lemma app_blind : Forall layer_blind App.app.
Proof.
  rewrite app_layers.
  repeat apply Forall_cons_2; [..|apply Forall_nil_2]; intros err x y Hxy;
    destruct err as [e|]; cbn [call layer_fn]; try exact I;
    pose proof Hxy as [Hq Hs].
  - unfold logger, console_apart, on_con. cbn. done.
  - unfold cors, console_apart, on_res. cbn. by rewrite Hs.
  - unfold custom.remove_x_powered_by, console_apart, on_res. cbn. by rewrite Hs.
  - unfold jsonParser. rewrite Hq. case_bool_decide; [|exact Hxy].
    destruct (JSON_parse _); cbn; [done|].
    unfold console_apart, on_req. cbn. by rewrite Hq, Hs.
  - unfold urlEncodedParser. rewrite Hq. case_bool_decide; [|exact Hxy]. cbn.
    unfold console_apart, on_req. cbn. by rewrite Hq, Hs.
  - unfold cookieParser. cbn. unfold console_apart, on_req. cbn. by rewrite Hq, Hs.
  - exact (router_handle_blind Api.router api_json_routes [] x y Hxy).
  - exact (router_handle_blind Routers.router root_json_routes [] x y Hxy).
  - unfold notFound. cbn. unfold console_apart, on_res. cbn. by rewrite Hq, Hs.
  - unfold errorHandler. cbn. unfold console_apart, on_res. cbn. by rewrite Hq, Hs.
Qed.

Lemma serve_blind c1 c2 r :
  fst (App.serve c1 r) = fst (App.serve c2 r) /\
  response_of (App.serve c1 r) = response_of (App.serve c2 r).
Proof.
  unfold App.serve, handle.
  destruct (app_handle_blind App.app app_blind None
              (expressInit (Exchange r fresh_response c1))
              (expressInit (Exchange r fresh_response c2)) []) as [Hf Hs]; [done|].
  split; [exact Hf|]. unfold response_of.
  destruct (snd (app_handle _ _ (expressInit (Exchange r fresh_response c1)) _)),
           (snd (app_handle _ _ (expressInit (Exchange r fresh_response c2)) _));
    try done. by destruct Hs as [_ ->].
Qed.

End pipeline.

(** ** The routers, case by case *)

(** Goals about short lists of layer names. *)
Ltac names_sublist :=
  repeat first [apply sublist_nil_l | apply sublist_skip | apply sublist_cons].

Ltac names_elem := rewrite !elem_of_cons; auto 10.

Ltac names_notin :=
  rewrite ?not_elem_of_cons; repeat split; first [discriminate | apply not_elem_of_nil].

Ltac names_in Hin :=
  let Hi := fresh "Hi" in
  intros Hi;
  first [ solve [apply Hin; names_elem]
        | exfalso; rewrite ?elem_of_cons, ?elem_of_nil in Hi; intuition discriminate ].

Section cases.
Context `{Platform}.

(** A router with one GET route passes, or answers through the handler,
    or answers OPTIONS by itself. *)
Lemma single_route_cases pat h n v :
  (forall x, h x = Reply (on_res (reply_with (req x) n v) x)) ->
  forall x,
    router_handle [Route pat "get" h] [] x = Next x \/
    router_handle [Route pat "get" h] [] x = Reply (on_res (reply_with (req x) n v) x) \/
    method (req x) = "OPTIONS" /\
    router_handle [Route pat "get" h] [] x = Reply (on_res (reply_options (req x)) x).
Proof.
  intros Hh x. cbn [router_handle route_path].
  destruct (route_match _ _); [|left; apply router_done_nil].
  destruct (handles_method _ _); [right; left; by rewrite Hh|].
  case_bool_decide as Hm; [|left; apply router_done_nil].
  right; right. split; [exact Hm|]. unfold router_done. rewrite Hm. reflexivity.
Qed.

Lemma api_layer_cases x rest called :
  (exists called',
     app_handle (Layer "api" "/api" (Mounted Api.router) :: rest) None x called
     = app_handle rest None x called' /\
     (called' = called \/
      called' = called ++ ["api"] /\ under_api (getPathname (url (req x))))) \/
  (exists u F,
     (F = reply_with (req x) 200 Body.hello_api \/
      F = reply_options (req x) /\ method (req x) = "OPTIONS") /\
     under_api (getPathname (url (req x))) /\
     app_handle (Layer "api" "/api" (Mounted Api.router) :: rest) None x called
     = (called ++ ["api"], Sent (on_res F (on_req (set_url u) x)))).
Proof.
  rewrite app_handle_cons. cbn [layer_path layer_fn layer_name].
  destruct (mount_match "/api" _) as [lp|] eqn:Hmm; [|left; eexists; eauto].
  destruct (trim_prefix lp _ x) as [[x1 sa]|] eqn:Ht; [|left; eexists; eauto].
  pose proof (under_api_of_mount _ _ Hmm) as Hunder.
  destruct (trim_prefix_url _ _ _ _ _ Ht) as (u & Hx1).
  apply mount_match_spec in Hmm as (rem & sep & Hp & Hrem & Hsep & Hlow); [|done].
  change (JS.toLowerCase (loose "/api")) with "/api" in Hlow.
  assert (lp <> "") as Hlp by (intros ->; destruct Hsep as [->| ->]; discriminate Hlow).
  destruct (trim_prefix_spec lp rem x x1 sa Hp Hlp Hrem Ht) as (Hres & _).
  cbn [call].
  destruct (single_route_cases "/echo" ApiLib.echo 200 Body.hello_api
              ltac:(reflexivity) x1) as [Hr|[Hr|[Hm Hr]]];
    unfold Api.router, get, new_router; cbn [app]; rewrite Hr.
  - left. rewrite Hres. eexists. split; [reflexivity|]. right. by split.
  - right. exists u, (reply_with (req x) 200 Body.hello_api). rewrite Hx1.
    split; [by left|]. split; [exact Hunder|reflexivity].
  - right. exists u, (reply_options (req x)). rewrite Hx1 in Hm |- *.
    split; [right; by split|]. split; [exact Hunder|reflexivity].
Qed.

Lemma root_layer_cases x rest called :
  (app_handle (Layer "router" "/" (Mounted Routers.router) :: rest) None x called
   = app_handle rest None x (called ++ ["router"])) \/
  (exists F,
     (F = reply_with (req x) 200 Body.hello_root \/
      F = reply_options (req x) /\ method (req x) = "OPTIONS") /\
     app_handle (Layer "router" "/" (Mounted Routers.router) :: rest) None x called
     = (called ++ ["router"], Sent (on_res F x))).
Proof.
  rewrite app_handle_slash. cbn [call].
  destruct (single_route_cases "/" RoutersLib.echo 200 Body.hello_root
              ltac:(reflexivity) x) as [Hr|[Hr|[Hm Hr]]];
    unfold Routers.router, get, new_router; cbn [app]; rewrite Hr.
  - by left.
  - right. exists (reply_with (req x) 200 Body.hello_root). split; [by left|reflexivity].
  - right. exists (reply_options (req x)). split; [right; by split|reflexivity].
Qed.

(** How an exchange that reached the routers ends: who was called, and
    what was sent. *)
Lemma routes_cases x called :
  exists t u F,
    t `sublist_of` ["api"; "router"; "notFound"] /\
    ("api" ∈ t -> under_api (getPathname (url (req x)))) /\
    ("errorHandler" ∉ t) /\
    (F = reply_with (req x) 404 Body.not_found /\ "notFound" ∈ t \/
     (F = reply_with (req x) 200 Body.hello_api \/
      F = reply_with (req x) 200 Body.hello_root \/
      F = reply_options (req x) /\ method (req x) = "OPTIONS") /\ "notFound" ∉ t) /\
    app_handle (drop 6 App.app) None x called
    = (called ++ t, Sent (on_res F (on_req (set_url u) x))).
Proof.
  rewrite app_layers. cbn [drop].
  assert (forall t0,
    t0 = [] \/ t0 = ["api"] ->
    ("api" ∈ t0 -> under_api (getPathname (url (req x)))) ->
    exists t u F,
      t `sublist_of` ["api"; "router"; "notFound"] /\
      ("api" ∈ t -> under_api (getPathname (url (req x)))) /\
      ("errorHandler" ∉ t) /\
      (F = reply_with (req x) 404 Body.not_found /\ "notFound" ∈ t \/
       (F = reply_with (req x) 200 Body.hello_api \/
        F = reply_with (req x) 200 Body.hello_root \/
        F = reply_options (req x) /\ method (req x) = "OPTIONS") /\ "notFound" ∉ t) /\
      app_handle [Layer "router" "/" (Mounted Routers.router);
                  Layer "notFound" "/" (Middleware notFound);
                  Layer "errorHandler" "/" (ErrorMiddleware errorHandler)]
                 None x (called ++ t0)
      = (called ++ t, Sent (on_res F (on_req (set_url u) x)))) as Hroot.
  { intros t0 Ht0 Hin.
    destruct (root_layer_cases x
      [Layer "notFound" "/" (Middleware notFound);
       Layer "errorHandler" "/" (ErrorMiddleware errorHandler)] (called ++ t0))
      as [->|(F & HF & ->)].
    - rewrite app_handle_slash. cbn [call notFound].
      exists (t0 ++ ["router"; "notFound"]), (url (req x)),
             (reply_with (req x) 404 Body.not_found).
      rewrite set_url_same, <- !app_assoc.
      destruct Ht0 as [->| ->]; cbn [app];
        (split; [names_sublist|split; [names_in Hin|split; [names_notin|split;
          [left; split; [reflexivity|names_elem]|reflexivity]]]]).
    - exists (t0 ++ ["router"]), (url (req x)), F.
      rewrite set_url_same, <- !app_assoc.
      destruct Ht0 as [->| ->]; cbn [app];
        (split; [names_sublist|split; [names_in Hin|split; [names_notin|split;
          [right; split; [destruct HF as [->|[-> Hm]]; auto|names_notin]|reflexivity]]]]). }
  destruct (api_layer_cases x
    [Layer "router" "/" (Mounted Routers.router);
     Layer "notFound" "/" (Middleware notFound);
     Layer "errorHandler" "/" (ErrorMiddleware errorHandler)] called)
    as [(called' & -> & [->|[-> Hunder]])|(u & F & HF & Hunder & ->)].
  - destruct (Hroot []) as (t & u & F & Ht); [by left| |].
    + intros Hi. by apply elem_of_nil in Hi.
    + rewrite app_nil_r in Ht. by exists t, u, F.
  - apply (Hroot ["api"]); [by right|done].
  - exists ["api"], u, F.
    split; [names_sublist|split; [done|split; [names_notin|split;
      [right; split; [destruct HF as [->|[-> Hm]]; auto|names_notin]|reflexivity]]]].
Qed.

End cases.

(** ** An exchange from end to end *)

Section served.
Context `{Platform}.

Lemma parses_or_raises r :
  parses r \/ exists e, headers r !! "content-type" = Some "application/json" /\
                        JSON_parse (body r) = inl e.
Proof.
  destruct (decide (headers r !! "content-type" = Some "application/json")) as [Hct|Hct];
    [|by left; left].
  destruct (JSON_parse (body r)) as [e|v] eqn:Hj; [right; by exists e|].
  left; right. by exists v.
Qed.






(** The first six layers on a request that [jsonParser] lets through. *)
Lemma serve_routed c r :
  parses r ->
  App.serve c r = app_handle (drop 6 App.app) None (routed_exchange c r) six_names.
Proof.
  intros Hp. rewrite serve_head, app_layers. cbn [drop].
  rewrite app_handle_slash. cbn [call].
  assert (jsonParser (after_headers c r)
          = Next (on_req (set_body
                    (if bool_decide (headers r !! "content-type" = Some "application/json")
                     then match JSON_parse (body r) with inr v => v | inl _ => body r end
                     else body r)) (after_headers c r))) as ->.
  { unfold jsonParser. rewrite req_after_headers.
    destruct Hp as [Hct|[v Hv]].
    - rewrite !bool_decide_eq_false_2 by exact Hct. by destruct r.
    - case_bool_decide; [by rewrite Hv|by destruct r]. }
  rewrite app_handle_slash. cbn [call].
  unfold urlEncodedParser at 1. cbn [req on_req set_body headers body].
  rewrite req_after_headers.
  unfold routed_exchange, parsed_body, parsed_cookies.
  destruct (decide (headers r !! "content-type" = Some "application/json")) as [Hj|Hj].
  - rewrite !(bool_decide_eq_true_2 _ Hj).
    rewrite (bool_decide_eq_false_2
               (headers r !! "content-type" = Some "application/x-www-form-urlencoded"))
      by (rewrite Hj; discriminate).
    rewrite app_handle_slash. reflexivity.
  - rewrite !(bool_decide_eq_false_2 _ Hj).
    case_bool_decide; rewrite app_handle_slash; reflexivity.
Qed.

(** The answer of [errorHandler]. *)
Lemma answer_errorHandler e x :
  statusCode (res (passed (errorHandler e x))) = 500 /\
  sent (res (passed (errorHandler e x))) = Some (Json Body.internal_error) /\
  stderr (con (passed (errorHandler e x))) = stderr (con x) ++ [JS.err_stack e] /\
  stdout (con (passed (errorHandler e x))) = stdout (con x).
Proof.
  unfold errorHandler. cbn [passed on_res on_con res con req].
  destruct (reply_with_failure (req x) 500 Body.internal_error (res x))
    as [Hs Hb]; [lia|lia|].
  split; [exact Hs|]. split; [exact Hb|]. split; reflexivity.
Qed.

Lemma answer_raised t e x :
  answer (t, Sent (passed (errorHandler e x)))
  = Some (500, Some (Json Body.internal_error)).
Proof.
  destruct (answer_errorHandler e x) as (Hs & Hb & _).
  unfold answer. cbn [snd]. by rewrite Hs, Hb.
Qed.

(** The answer of [notFound]. *)
Lemma answer_notFound t x :
  answer (t, Sent (passed (notFound x))) = Some (404, Some (Json Body.not_found)).
Proof.
  destruct (reply_with_failure (req x) 404 Body.not_found (res x))
    as [Hs Hb]; [lia|lia|].
  unfold answer, notFound. cbn [snd passed on_res res].
  apply (f_equal2 (fun a b => Some (a, b)) Hs Hb).
Qed.

(** The response after the header layers carries no validator. *)
Lemma no_validators c r :
  getHeader "ETag" (res (after_headers c r)) = None /\
  getHeader "Last-Modified" (res (after_headers c r)) = None.
Proof. split; reflexivity. Qed.

Lemma ok_or_fresh_request rq rq' v text :
  method rq = method rq' -> headers rq = headers rq' ->
  ok_or_fresh rq v text = ok_or_fresh rq' v text.
Proof. intros Hm Hh. unfold ok_or_fresh, finds_fresh. by rewrite Hm, Hh. Qed.

(** The answer of a handler that calls [res.status(200).json(v)] on an
    exchange that came through the header layers. *)
Lemma answer_ok t c r v text x y :
  JS.stringify v = Some text ->
  method (req x) = method r -> headers (req x) = headers r ->
  res y = res (after_headers c r) ->
  answer (t, Sent (on_res (reply_with (req x) 200 v) y)) = Some (ok_or_fresh r v text).
Proof.
  intros Hw Hm Hh Hr. unfold answer. cbn [snd on_res res]. rewrite Hr.
  destruct (no_validators c r) as [He Hl].
  rewrite (reply_with_ok (req x) v text _ Hw He Hl).
  by rewrite (ok_or_fresh_request (req x) r).
Qed.

(** The answer of a router to OPTIONS, and its [Allow] header. *)
Lemma answer_options t c r x y :
  method (req x) = "OPTIONS" ->
  res y = res (after_headers c r) ->
  answer (t, Sent (on_res (reply_options (req x)) y)) = Some (200, Some (Text "GET,HEAD")) /\
  getHeader "Allow" (res (on_res (reply_options (req x)) y)) = Some "GET,HEAD".
Proof.
  intros Hm Hr. unfold answer. cbn [snd on_res res]. rewrite Hr.
  destruct (reply_options_sent (req x) (res (after_headers c r)) Hm)
    as (Hs & Hb & Ha); [done..|].
  by rewrite Hs, Hb.
Qed.

(** The end of an exchange that [jsonParser] lets through. *)
Lemma serve_parses_cases c r :
  parses r ->
  exists t u F,
    t `sublist_of` ["api"; "router"; "notFound"] /\
    ("api" ∈ t -> under_api (getPathname (url r))) /\
    ("errorHandler" ∉ t) /\
    (F = reply_with r 404 Body.not_found /\ "notFound" ∈ t \/
     (F = reply_with r 200 Body.hello_api \/ F = reply_with r 200 Body.hello_root \/
      F = reply_options r /\ method r = "OPTIONS") /\ "notFound" ∉ t) /\
    App.serve c r
    = (six_names ++ t, Sent (on_res F (on_req (set_url u) (routed_exchange c r)))).
Proof.
  intros Hp. rewrite (serve_routed c r Hp).
  destruct (routes_cases (routed_exchange c r) six_names) as (t & u & F & Hs & Ha & He & Hk & ->).
  by exists t, u, F.
Qed.

(** The answer and the console of an exchange that [jsonParser] lets
    through. *)
Lemma serve_parses_answer c r :
  parses r ->
  exists t,
    fst (App.serve c r) = six_names ++ t /\
    t `sublist_of` ["api"; "router"; "notFound"] /\
    ("api" ∈ t -> under_api (getPathname (url r))) /\
    ("errorHandler" ∉ t) /\
    con (final_exchange (snd (App.serve c r))) = con (after_headers c r) /\
    (answer (App.serve c r) = Some (404, Some (Json Body.not_found)) /\ "notFound" ∈ t \/
     (answer (App.serve c r) = Some (ok_or_fresh r Body.hello_api text_api) \/
      answer (App.serve c r) = Some (ok_or_fresh r Body.hello_root text_root) \/
      answer (App.serve c r) = Some (200, Some (Text "GET,HEAD")) /\
      method r = "OPTIONS") /\ "notFound" ∉ t).
Proof.
  intros Hp.
  destruct (serve_parses_cases c r Hp) as (t & u & F & Hs & Ha & He & Hk & ->).
  exists t. repeat (split; [done|]).
  destruct Hk as [[-> Hn]|[[->|[->|[-> Hm]]] Hn]].
  - left. split; [|exact Hn].
    apply (answer_notFound _ (on_req (set_url u) (routed_exchange c r))).
  - right. split; [left|exact Hn].
    by apply (answer_ok _ c r Body.hello_api text_api (routed_exchange c r)).
  - right. split; [right; left|exact Hn].
    by apply (answer_ok _ c r Body.hello_root text_root (routed_exchange c r)).
  - right. split; [right; right; split; [|exact Hm]|exact Hn].
    by apply (answer_options _ c r (routed_exchange c r)).
Qed.



End served.

(** ** The tables *)

Section tables.
Context `{Platform}.







End tables.

(** * The claims *)

Section failures.
Context `{Platform}.

(** With a failure pending anywhere at or before the error handler, the
    next layer called is [errorHandler], and it ends the exchange. *)
Lemma pending_reaches_errorHandler k e x called :
  k < 10 ->
  app_handle (drop k App.app) (Some e) x called =
  (called ++ ["errorHandler"], Sent (passed (errorHandler e x))).
Proof.
  intros Hk. rewrite app_layers.
  do 10 (destruct k as [|k]; [cbn [drop];
    repeat (rewrite app_handle_pending by reflexivity);
    rewrite app_handle_slash; reflexivity|]).
  lia.
Qed.

End failures.

(** ** C1: GET / *)




(** It fails on a conditional request too: [GET /] with
    [If-None-Match: *] is answered 304, without a content type and
    without a body. *)
Example echo_root_304 :
  answer (App.serve (H:=Literals.platform) no_output
            (Literals.request "GET" "/" [("if-none-match", "*")] JS.Undefined))
  = Some (304, Some (Text "")) /\
  getHeader "Content-Type" <$>
    response_of (App.serve (H:=Literals.platform) no_output
                   (Literals.request "GET" "/" [("if-none-match", "*")] JS.Undefined))
  = Some None.
Proof. split; reflexivity. Qed.

(** ** C2: GET /api/echo *)




(** And on [GET /api/echo] with [If-None-Match: *]: status 304. *)
Example echo_api_304 :
  answer (App.serve (H:=Literals.platform) no_output
            (Literals.request "GET" "/api/echo" [("if-none-match", "*")] JS.Undefined))
  = Some (304, Some (Text "")).
Proof. reflexivity. Qed.

(** ** C3: everything else *)




(** ** C4: the error handler *)

(** C4.  Whatever failure [e] is pending, and at whatever point of the
    stack at or before the error handler ([k] layers in) it was raised,
    the next and last layer called is [errorHandler]: it writes the
    failure's stack to the error stream and answers with status 500 and
    the body [{"status":false,"message":"Internal server error"}]; the
    response is the same for every failure [e']. *)
Theorem failure_500 `{Platform} (k : nat) (e : JS.error) (x : exchange)
        (called : list string) :
  k < 10 ->
  fst (app_handle (drop k App.app) (Some e) x called) = called ++ ["errorHandler"] /\
  answer (app_handle (drop k App.app) (Some e) x called)
    = Some (500, Some (Json Body.internal_error)) /\
  wire (Json Body.internal_error) = Some (Body.text "false" "Internal server error") /\
  stderr (console_of (app_handle (drop k App.app) (Some e) x called))
    = stderr (con x) ++ [JS.err_stack e] /\
  forall e' : JS.error,
    response_of (app_handle (drop k App.app) (Some e') x called)
    = response_of (app_handle (drop k App.app) (Some e) x called).
Proof.
  intros Hk. rewrite pending_reaches_errorHandler by exact Hk.
  destruct (answer_errorHandler e x) as (Hs & Hb & He & _).
  split; [reflexivity|]. split; [|split; [reflexivity|split]].
  - unfold answer. cbn [snd]. by rewrite Hs, Hb.
  - exact He.
  - intros e'. by rewrite pending_reaches_errorHandler by exact Hk.
Qed.

(** The failure of [jsonParser], the fourth layer. *)
Lemma failure_500_witness :
  fst (app_handle (H:=Literals.platform)
         (drop 4 (App.app (H:=Literals.platform)))
         (Some (Literals.syntaxError "undefined"))
         (Exchange (Literals.request "GET" "/" json_type JS.Undefined)
                   fresh_response no_output)
         ["jsonParser"])
  = ["jsonParser"; "errorHandler"] /\
  answer (app_handle (H:=Literals.platform)
         (drop 4 (App.app (H:=Literals.platform)))
         (Some (Literals.syntaxError "undefined"))
         (Exchange (Literals.request "GET" "/" json_type JS.Undefined)
                   fresh_response no_output)
         ["jsonParser"])
  = Some (500, Some (Json Body.internal_error)) /\
  stderr (console_of (app_handle (H:=Literals.platform)
         (drop 4 (App.app (H:=Literals.platform)))
         (Some (Literals.syntaxError "undefined"))
         (Exchange (Literals.request "GET" "/" json_type JS.Undefined)
                   fresh_response no_output)
         ["jsonParser"]))
  = ["SyntaxError: undefined is not valid JSON"].
Proof.
  pose proof (failure_500 (H:=Literals.platform) 4 (Literals.syntaxError "undefined")
    (Exchange (Literals.request "GET" "/" json_type JS.Undefined)
              fresh_response no_output)
    ["jsonParser"] ltac:(lia)) as (Hf & Ha & _ & He & _).
  split; [exact Hf|]. split; [exact Ha|exact He].
Defined.

(** ** C5: the JSON body parser *)



(** ** C6: response headers *)


(** ** C7: the order of the stages *)




(** ** C8: no state between exchanges *)

(** C8.  The response to a request does not depend on the console the
    exchange starts from, the only thing an exchange leaves behind: two
    exchanges of the same request end with the same response, and served
    in sequence every request, a repeated one included, gets the response
    it gets on its own. *)
Theorem responses_ignore_history `{Platform} (c1 c2 : console) (r : request)
        (rs : list request) :
  response_of (App.serve c1 r) = response_of (App.serve c2 r) /\
  serve_all c1 rs = (fun q => response_of (App.serve no_output q)) <$> rs /\
  serve_all c1 [r; r] = [response_of (App.serve no_output r);
                         response_of (App.serve no_output r)].
Proof.
  assert (forall rs' c,
    serve_all c rs' = (fun q => response_of (App.serve no_output q)) <$> rs') as Hall.
  { induction rs' as [|q rs' IH]; intros c; [reflexivity|].
    cbn [serve_all fmap list_fmap]. rewrite IH.
    by rewrite (proj2 (serve_blind c no_output q)). }
  split; [apply serve_blind|]. split; apply Hall.
Qed.

(** ** C9: the header removals commute *)

(** C9.  Any two of [remove_x_powered_by], [remove_etag] and
    [remove_x_content_type_options], run one after the other on any
    exchange, leave the same exchange in either order. *)
Theorem removals_commute (x : exchange) :
  and_then custom.remove_x_powered_by custom.remove_etag x
  = and_then custom.remove_etag custom.remove_x_powered_by x /\
  and_then custom.remove_x_powered_by custom.remove_x_content_type_options x
  = and_then custom.remove_x_content_type_options custom.remove_x_powered_by x /\
  and_then custom.remove_etag custom.remove_x_content_type_options x
  = and_then custom.remove_x_content_type_options custom.remove_etag x.
Proof.
  unfold and_then, custom.remove_x_powered_by, custom.remove_etag,
    custom.remove_x_content_type_options, on_res, removeHeader.
  cbn [req res con statusCode res_headers sent].
  split; [|split]; do 3 f_equal; apply delete_delete.
Qed.

(** ** C10: a JSON content type without a JSON body *)



(** * Further properties of the routing *)

(** A HEAD request for [/], in origin form, on which [jsonParser] does
    not raise is given to the GET handler: status 200 and the body of
    [GET /] handed to [res.send], which does not write it for HEAD;
    unless the request is fresh for that body, and then status 304. *)
Theorem head_root_200 `{Platform} (c : console) (r : request) :
  method r = "HEAD" -> getPathname (url r) = "/" -> parses r ->
  answer (App.serve c r)
  = Some (if finds_fresh r (Body.text "true" "Hello world, from /")
          then (304, Some (Text ""))
          else (200, Some (Json Body.hello_root))).
Proof.
  intros Hm Hp Hj.
  destruct (serve_passes c r Hj) as (x & (Hxm & Hxu & Hxh & Hxr & _) & ->).
  rewrite req_after_headers in Hxm, Hxu, Hxh.
  rewrite route_root.
  - apply (answer_ok _ c r Body.hello_root text_root x x); done.
  - right. by rewrite Hxm, Hm.
  - by rewrite Hxu.
Qed.

Lemma head_root_200_witness :
  answer (App.serve (H:=Literals.platform) no_output
            (Literals.request "HEAD" "/" [] JS.Undefined))
  = Some (200, Some (Json Body.hello_root)).
Proof.
  apply (head_root_200 (H:=Literals.platform)).
  - reflexivity.
  - reflexivity.
  - left. intros Hct. vm_compute in Hct. discriminate Hct.
Defined.

(** An OPTIONS request for [/] on which [jsonParser] does not raise is
    answered by the root router itself: status 200, the text [GET,HEAD],
    and the same text in the [Allow] header. *)
Theorem options_root_allow `{Platform} (c : console) (r : request) :
  method r = "OPTIONS" -> getPathname (url r) = "/" -> parses r ->
  answer (App.serve c r) = Some (200, Some (Text "GET,HEAD")) /\
  getHeader "Allow" <$> response_of (App.serve c r) = Some (Some "GET,HEAD").
Proof.
  intros Hm Hp Hj.
  destruct (serve_passes c r Hj) as (x & (Hxm & Hxu & _ & Hxr & _) & ->).
  rewrite req_after_headers in Hxm, Hxu.
  rewrite route_root_options by congruence.
  destruct (answer_options
    (["logger"; "cors"; "custom.remove_x_powered_by"; "jsonParser";
      "urlEncodedParser"; "cookieParser"] ++ ["router"]) c r x x) as [Ha Hh];
    [congruence|exact Hxr|].
  split; [exact Ha|]. unfold response_of. cbn [snd fmap option_fmap option_map].
  f_equal. exact Hh.
Qed.

Lemma options_root_allow_witness :
  answer (App.serve (H:=Literals.platform) no_output
            (Literals.request "OPTIONS" "/" [] JS.Undefined))
  = Some (200, Some (Text "GET,HEAD")) /\
  getHeader "Allow" <$>
    response_of (App.serve (H:=Literals.platform) no_output
                   (Literals.request "OPTIONS" "/" [] JS.Undefined))
  = Some (Some "GET,HEAD").
Proof.
  apply (options_root_allow (H:=Literals.platform)).
  - reflexivity.
  - reflexivity.
  - left. intros Hct. vm_compute in Hct. discriminate Hct.
Defined.

(** A request with method GET or HEAD whose path is [/api/echo], with or
    without a trailing slash and in any letter case, and on which
    [jsonParser] does not raise, is given to the API echo handler: status
    200 and the API body, unless the request is fresh for that body, and
    then status 304. *)
Theorem echo_api_any_case `{Platform} (c : console) (r : request) :
  gets (method r) ->
  JS.toLowerCase (getPathname (url r)) = "/api/echo" \/
  JS.toLowerCase (getPathname (url r)) = "/api/echo/" ->
  parses r ->
  answer (App.serve c r)
  = Some (if finds_fresh r (Body.text "true" "Hello world, from the API!")
          then (304, Some (Text ""))
          else (200, Some (Json Body.hello_api))).
Proof.
  intros Hm Hp Hj.
  destruct (serve_passes c r Hj) as (x & (Hxm & Hxu & Hxh & Hxr & _) & ->).
  rewrite req_after_headers in Hxm, Hxu, Hxh.
  destruct (route_api_ci x
    ["logger"; "cors"; "custom.remove_x_powered_by"; "jsonParser";
     "urlEncodedParser"; "cookieParser"]) as (x1 & Hm1 & Hh1 & Hr1 & ->).
  - by rewrite Hxm.
  - by rewrite Hxu.
  - apply (answer_ok _ c r Body.hello_api text_api x1 x1); [reflexivity|congruence..].
Qed.

Lemma echo_api_any_case_witness :
  answer (App.serve (H:=Literals.platform) no_output
            (Literals.request "GET" "/API/Echo/?q=1" [] JS.Undefined))
  = Some (200, Some (Json Body.hello_api)).
Proof.
  apply (echo_api_any_case (H:=Literals.platform)).
  - left. reflexivity.
  - right. reflexivity.
  - left. intros Hct. vm_compute in Hct. discriminate Hct.
Defined.

(** Why [routed_paths] lists [/api//echo]: the mount point takes the
    slash that follows it when another slash comes next. *)
Example echo_api_doubled_slash :
  answer (App.serve (H:=Literals.platform) no_output
            (Literals.request "GET" "/api//echo" [] JS.Undefined))
  = Some (200, Some (Json Body.hello_api)).
Proof. reflexivity. Qed.


(** * More of the code *)

(** ** The console *)



(** ** Who answers *)


(** The request is answered with status 404 and the not-found body
    exactly when [notFound] is among the layers called. *)
Theorem not_found_iff `{Platform} (c : console) (r : request) :
  answer (App.serve c r) = Some (404, Some (Json Body.not_found))
  <-> "notFound" ∈ fst (App.serve c r).
Proof.
  destruct (parses_or_raises r) as [Hp|(e & Hct & He)].
  - destruct (serve_parses_answer c r Hp) as (t & Ht & _ & _ & _ & _ & Hk).
    rewrite Ht. split.
    + intros Ha. apply elem_of_app. right.
      destruct Hk as [[_ Hn]|[[Hk|[Hk|[Hk _]]] _]]; [exact Hn|..];
        rewrite Ha in Hk; unfold ok_or_fresh in Hk;
        repeat match type of Hk with context [if ?b then _ else _] => destruct b end;
        discriminate Hk.
    + intros [Hi|Hi]%elem_of_app.
      * unfold six_names in Hi. rewrite !elem_of_cons, elem_of_nil in Hi.
        intuition discriminate.
      * destruct Hk as [[Hk _]|[_ Hn]]; [exact Hk|by destruct Hn].
  - rewrite (serve_raises c r e Hct He), answer_raised. cbn [fst]. split; [discriminate|].
    intros Hi. rewrite !elem_of_cons, elem_of_nil in Hi. intuition discriminate.
Qed.






(** Given that [fresh] finds no request fresh without a validator: a
    request with neither [If-None-Match] nor [If-Modified-Since] is never
    answered 304, and when [jsonParser] does not raise on it and its
    method is GET or HEAD it gets the echo body with status 200 on the
    path [/] and on the four paths of the API route. *)
Theorem unconditional_echo_200 `{Platform} (c : console) (r : request) :
  stale_without_validator ->
  headers r !! "if-none-match" = None -> headers r !! "if-modified-since" = None ->
  answer (App.serve c r) <> Some (304, Some (Text "")) /\
  (parses r -> gets (method r) -> getPathname (url r) = "/" ->
   answer (App.serve c r) = Some (200, Some (Json Body.hello_root))) /\
  (parses r -> gets (method r) -> JS.toLowerCase (getPathname (url r)) ∈ api_paths ->
   answer (App.serve c r) = Some (200, Some (Json Body.hello_api))).
Proof.
  intros Hlaw Hnm Hms.
  assert (forall v text, ok_or_fresh r v text = (200, Some (Json v))) as Hstale.
  { intros v text. unfold ok_or_fresh, finds_fresh.
    by rewrite (Hlaw _ _ _ Hnm Hms), andb_false_r. }
  split; [|split].
  - destruct (parses_or_raises r) as [Hp|(e & Hct & He)].
    + destruct (serve_parses_answer c r Hp) as (t & _ & _ & _ & _ & _ & Hk).
      rewrite !Hstale in Hk.
      destruct Hk as [[-> _]|[[->|[->|[-> _]]] _]]; discriminate.
    + rewrite (serve_raises c r e Hct He), answer_raised. discriminate.
  - intros Hj Hm Hp.
    destruct (serve_passes c r Hj) as (x & (Hxm & Hxu & Hxh & Hxr & _) & ->).
    rewrite req_after_headers in Hxm, Hxu, Hxh.
    rewrite route_root by (by rewrite ?Hxm, ?Hxu).
    rewrite <- (Hstale Body.hello_root text_root).
    apply (answer_ok _ c r Body.hello_root text_root x x); done.
  - intros Hj Hm Hp.
    destruct (serve_passes c r Hj) as (x & (Hxm & Hxu & Hxh & Hxr & _) & ->).
    rewrite req_after_headers in Hxm, Hxu, Hxh.
    destruct (route_api_any x
      ["logger"; "cors"; "custom.remove_x_powered_by"; "jsonParser";
       "urlEncodedParser"; "cookieParser"]) as (x1 & Hm1 & Hh1 & Hr1 & Hget & _);
      [by rewrite Hxu|].
    rewrite Hget by (by rewrite Hxm).
    rewrite <- (Hstale Body.hello_api text_api).
    apply (answer_ok _ c r Body.hello_api text_api x1 x1); [reflexivity|congruence..].
Qed.

(** [GET /api//echo] without a validator. *)
Lemma unconditional_echo_200_witness :
  answer (App.serve (H:=Literals.platform) no_output
            (Literals.request "GET" "/api//echo" [("accept", "*/*")] JS.Undefined))
  = Some (200, Some (Json Body.hello_api)).
Proof.
  refine (proj2 (proj2 (unconditional_echo_200 (H:=Literals.platform) no_output
    (Literals.request "GET" "/api//echo" [("accept", "*/*")] JS.Undefined) _ _ _)) _ _ _).
  - intros hs e l Hnm Hms. unfold fresh, Literals.platform, Literals.none_match_any.
    by rewrite Hnm.
  - reflexivity.
  - reflexivity.
  - left. intros Hct. vm_compute in Hct. discriminate Hct.
  - left. reflexivity.
  - unfold api_paths. rewrite !elem_of_cons. auto 10.
Defined.


(** ** The request the handlers see *)


(** The order of the three parsers in [src/app.js] does not matter:
    [jsonParser] and [urlEncodedParser] act on disjoint content types,
    [cookieParser] writes another field; with [jsonParser] the exchange
    is the same in either order when it does not raise. *)
Theorem parsers_commute `{Platform} (x : exchange) :
  and_then jsonParser urlEncodedParser x = and_then urlEncodedParser jsonParser x /\
  and_then cookieParser urlEncodedParser x = and_then urlEncodedParser cookieParser x /\
  (parses (req x) ->
   and_then cookieParser jsonParser x = and_then jsonParser cookieParser x).
Proof.
  unfold and_then, jsonParser, urlEncodedParser, cookieParser.
  cbn [req on_req set_body set_cookies headers body].
  split; [|split].
  - destruct (decide (headers (req x) !! "content-type" = Some "application/json"))
      as [Hj|Hj].
    + rewrite !(bool_decide_eq_true_2 _ Hj).
      rewrite !(bool_decide_eq_false_2
                 (headers (req x) !! "content-type"
                  = Some "application/x-www-form-urlencoded"))
        by (rewrite Hj; discriminate).
      rewrite !(bool_decide_eq_true_2 _ Hj).
      destruct (JSON_parse (body (req x))) as [e|v]; [reflexivity|].
      cbn [req on_req set_body headers].
      by rewrite bool_decide_eq_false_2 by (rewrite Hj; discriminate).
    + rewrite !(bool_decide_eq_false_2 _ Hj).
      case_bool_decide; by rewrite ?(bool_decide_eq_false_2 _ Hj).
  - by case_bool_decide.
  - intros Hp.
    destruct (decide (headers (req x) !! "content-type" = Some "application/json"))
      as [Hj|Hj].
    + rewrite !(bool_decide_eq_true_2 _ Hj).
      destruct Hp as [Hp|[v Hv]]; [done|]. by rewrite Hv.
    + by rewrite !(bool_decide_eq_false_2 _ Hj).
Qed.

(** ** The utilities of [custom] and [cors] *)

Lemma endsWith_app_slash s : JS.endsWith (s +:+ "/") "/" = true.
Proof.
  induction s as [|c s IH]; [reflexivity|]. rewrite append_cons.
  cbn [JS.endsWith]. destruct (s +:+ "/") eqn:Hs; [by destruct s|exact IH].
Qed.

Lemma slice_init_app_slash s : JS.slice_init (s +:+ "/") = s.
Proof.
  induction s as [|c s IH]; [reflexivity|]. rewrite append_cons.
  cbn [JS.slice_init]. destruct (s +:+ "/") eqn:Hs; [by destruct s|by rewrite IH].
Qed.

Lemma endsWith_slash_inv u : JS.endsWith u "/" = true -> exists s, u = s +:+ "/".
Proof.
  induction u as [|c u IH]; [done|]. cbn [JS.endsWith]. destruct u as [|d u].
  - intros ->%Ascii.eqb_eq. by exists "".
  - intros (s & ->)%IH. by exists (String c s).
Qed.

Lemma length_app_slash s : String.length (s +:+ "/") = S (String.length s).
Proof. induction s as [|c s IH]; [reflexivity|]. rewrite append_cons. cbn. by rewrite IH. Qed.

Lemma remove_trailing_slash_strips s x :
  s <> "" -> url (req x) = s +:+ "/" ->
  custom.remove_trailing_slash x = Next (on_req (set_url s) x).
Proof.
  intros Hs Hu. unfold custom.remove_trailing_slash.
  rewrite Hu, endsWith_app_slash, length_app_slash, slice_init_app_slash.
  destruct s; [done|reflexivity].
Qed.

Lemma remove_trailing_slash_keeps x :
  url (req x) = "/" \/ (forall s, url (req x) <> s +:+ "/") ->
  custom.remove_trailing_slash x = Next x.
Proof.
  intros [Hu|Hu]; unfold custom.remove_trailing_slash; [by rewrite Hu|].
  destruct (JS.endsWith (url (req x)) "/") eqn:He; [|reflexivity].
  apply endsWith_slash_inv in He as (s & Hs). by destruct (Hu s).
Qed.

(** [custom.remove_trailing_slash] looks at [req.url], query string
    included.  A target that ends in a slash and is longer than one
    character loses that one slash; the target [/] and a target that does
    not end in a slash (such as [/docs/?page=2]) are left alone.  It is
    not idempotent: of two trailing slashes one call removes one, a second
    call the other.  It never empties a target. *)
Theorem remove_trailing_slash_once (x : exchange) :
  (forall s, s <> "" -> url (req x) = s +:+ "/" ->
             custom.remove_trailing_slash x = Next (on_req (set_url s) x)) /\
  (url (req x) = "/" -> custom.remove_trailing_slash x = Next x) /\
  ((forall s, url (req x) <> s +:+ "/") -> custom.remove_trailing_slash x = Next x) /\
  (forall s, s <> "" -> url (req x) = s +:+ "//" ->
             custom.remove_trailing_slash x = Next (on_req (set_url (s +:+ "/")) x) /\
             and_then custom.remove_trailing_slash custom.remove_trailing_slash x
             = Next (on_req (set_url s) x)) /\
  (url (req x) <> "" -> url (req (passed (custom.remove_trailing_slash x))) <> "").
Proof.
  split; [|split; [|split; [|split]]].
  - intros s. apply remove_trailing_slash_strips.
  - intros Hu. apply remove_trailing_slash_keeps. by left.
  - intros Hu. apply remove_trailing_slash_keeps. by right.
  - intros s Hs Hu.
    assert (custom.remove_trailing_slash x = Next (on_req (set_url (s +:+ "/")) x)) as Hone.
    { apply remove_trailing_slash_strips; [by destruct s|].
      rewrite Hu. change "//" with ("/" +:+ "/"). by rewrite append_assoc. }
    split; [exact Hone|]. unfold and_then. rewrite Hone.
    by rewrite (remove_trailing_slash_strips s).
  - intros Hne. unfold custom.remove_trailing_slash.
    destruct (JS.endsWith (url (req x)) "/") eqn:He; [|exact Hne].
    apply endsWith_slash_inv in He as (s & Hs). rewrite Hs, length_app_slash, slice_init_app_slash.
    destruct s as [|ch s]; [exact Hne|]. cbn. discriminate.
Qed.

Lemma removeHeader_removes name :
  removes_header name (fun x => Next (on_res (removeHeader name) x)).
Proof.
  intros x. eexists. split; [reflexivity|]. cbn [req res con on_res].
  repeat (split; [reflexivity|]). split; [|split].
  - intros same Hs. unfold getHeader, removeHeader. cbn [res_headers].
    by rewrite Hs, lookup_delete_eq.
  - intros other Ho. unfold getHeader, removeHeader. cbn [res_headers].
    by rewrite lookup_delete_ne.
  - unfold and_then, on_res, removeHeader. cbn [req res con statusCode res_headers sent].
    by rewrite delete_delete_eq.
Qed.

(** Each of [custom.remove_x_powered_by], [custom.remove_etag] and
    [custom.remove_x_content_type_options] calls [next()] with its header
    gone under every spelling of the name, every other header, the status,
    the payload, the request and the console as they were; running it
    twice is the same as once. *)
Theorem removals_remove :
  removes_header "X-Powered-By" custom.remove_x_powered_by /\
  removes_header "ETag" custom.remove_etag /\
  removes_header "X-Content-Type-Options" custom.remove_x_content_type_options.
Proof. repeat split; apply removeHeader_removes. Qed.

(** [cors] sets the three [Access-Control-Allow-*] headers to [*]
    whatever they held, and touches no other header, nor the status, the
    payload, the request or the console; it is idempotent, and commutes
    with each of the three header removals of [custom]. *)
Theorem cors_overwrites (x : exchange) :
  exists x',
    cors x = Next x' /\ req x' = req x /\ con x' = con x /\
    statusCode (res x') = statusCode (res x) /\ sent (res x') = sent (res x) /\
    getHeader "Access-Control-Allow-Origin" (res x') = Some "*" /\
    getHeader "Access-Control-Allow-Methods" (res x') = Some "*" /\
    getHeader "Access-Control-Allow-Headers" (res x') = Some "*" /\
    (forall other, JS.toLowerCase other ∉ cors_names ->
                   getHeader other (res x') = getHeader other (res x)) /\
    and_then cors cors x = cors x /\
    and_then cors custom.remove_x_powered_by x = and_then custom.remove_x_powered_by cors x /\
    and_then cors custom.remove_etag x = and_then custom.remove_etag cors x /\
    and_then cors custom.remove_x_content_type_options x
    = and_then custom.remove_x_content_type_options cors x.
Proof.
  eexists. split; [reflexivity|]. cbn [req res con on_res].
  do 4 (split; [reflexivity|]).
  split; [|split; [|split; [|split; [|split; [|split; [|split]]]]]].
  - rewrite !getHeader_setHeader_ne by (by vm_compute).
    by apply getHeader_setHeader_eq.
  - rewrite getHeader_setHeader_ne by (by vm_compute).
    by apply getHeader_setHeader_eq.
  - by apply getHeader_setHeader_eq.
  - intros other Ho. unfold cors_names in Ho. rewrite !not_elem_of_cons in Ho.
    destruct Ho as (Ho1 & Ho2 & Ho3 & _).
    unfold getHeader, setHeader. cbn [res_headers].
    by rewrite !lookup_insert_ne.
  - unfold and_then, cors, on_res, setHeader.
    cbn [req res con statusCode res_headers sent]. do 3 f_equal.
    apply map_eq. intros i. rewrite !lookup_insert. by repeat case_decide.
  - unfold and_then, cors, custom.remove_x_powered_by, on_res, setHeader, removeHeader.
    cbn [req res con statusCode res_headers sent]. do 3 f_equal.
    by rewrite !delete_insert_ne.
  - unfold and_then, cors, custom.remove_etag, on_res, setHeader, removeHeader.
    cbn [req res con statusCode res_headers sent]. do 3 f_equal.
    by rewrite !delete_insert_ne.
  - unfold and_then, cors, custom.remove_x_content_type_options, on_res, setHeader,
      removeHeader.
    cbn [req res con statusCode res_headers sent]. do 3 f_equal.
    by rewrite !delete_insert_ne.
Qed.
